(** * AlturaTime backend (server.py): the upload store and its lookups

    A shallow embedding of the Flask application in [server.py]: the
    extension check [allowed_filename], the upload view
    [upload_schedule], the two lookup views [get_ics] and [get_meta] and
    the page view [schedule_page], over an explicit model of the upload
    directory.

    Conventions.
    - A Python [str] is the list of its code points ([pystr]); [str]
      turns a literal into one.  A payload is a list of bytes.
    - The upload directory is a finite map from path to file content.
    - A view either returns a response or lets an exception escape:
      its result is a sum, a raised exception on the left.
    - What a call draws from outside (the random UUID, whether a write
      to the disk goes through) is handed to the view in an [Env]. *)

From Stdlib Require Import ZArith Ascii String.
From Stdlib.Strings Require Import Byte.
From stdpp Require Import gmap strings list fin_maps.

Open Scope Z_scope.

(** ** Python strings *)

Abbreviation pystr := (list N).

Definition str (s : string) : pystr := N_of_ascii <$> list_ascii_of_string s.

(** [str.lower] on the letters A-Z.  Characters outside ASCII are left
    as they are: none of them lowercases to one of the characters of
    an allowed extension, so the test of [allowed_filename] is the one
    Python makes. *)
Definition lower_char (c : N) : N :=
  if ((65 <=? c) && (c <=? 90))%N then (c + 32)%N else c.

Definition lower (s : pystr) : pystr := lower_char <$> s.

(** [str.isspace] for one character: the code points Python treats as
    white space. *)
Definition isspace (c : N) : bool :=
  (((9 <=? c) && (c <=? 13)) || ((28 <=? c) && (c <=? 32))
   || (c =? 133) || (c =? 160) || (c =? 5760)
   || ((8192 <=? c) && (c <=? 8202))
   || (c =? 8232) || (c =? 8233) || (c =? 8239) || (c =? 8287)
   || (c =? 12288))%N.

Fixpoint lstrip_by (P : N → bool) (s : pystr) : pystr :=
  match s with
  | [] => []
  | c :: r => if P c then lstrip_by P r else s
  end.

Fixpoint rstrip_by (P : N → bool) (s : pystr) : pystr :=
  match s with
  | [] => []
  | c :: r =>
      match rstrip_by P r with
      | [] => if P c then [] else [c]
      | r' => c :: r'
      end
  end.

(** [s.strip()] *)
Definition strip (s : pystr) : pystr := rstrip_by isspace (lstrip_by isspace s).

(** [s.rstrip(chars)] for a one-character [chars] *)
Definition rstrip_char (c : N) (s : pystr) : pystr :=
  rstrip_by (λ x, bool_decide (x = c)) s.

(** [s.startswith(c)] and [s.endswith(c)] for a one-character [c] *)
Definition startswith (s : pystr) (c : N) : bool :=
  match s with
  | x :: _ => bool_decide (x = c)
  | [] => false
  end.

Definition endswith (s : pystr) (c : N) : bool :=
  match last s with
  | Some x => bool_decide (x = c)
  | None => false
  end.

(** [s.rfind(c)] for a one-character [c]: the highest index of [c] in
    [s], or -1. *)
Fixpoint rfind_from (s : pystr) (c : N) (i best : Z) : Z :=
  match s with
  | [] => best
  | x :: r => rfind_from r c (i + 1) (if bool_decide (x = c) then i else best)
  end.

Definition rfind (s : pystr) (c : N) : Z := rfind_from s c 0 (-1).

(** [s[i:j]] for indices that are not negative *)
Definition slice (s : pystr) (i j : Z) : pystr :=
  take (Z.to_nat (j - i)) (drop (Z.to_nat i) s).

Definition slice_to (s : pystr) (j : Z) : pystr := take (Z.to_nat j) s.
Definition slice_from (s : pystr) (i : Z) : pystr := drop (Z.to_nat i) s.

(** ** os.path (posixpath) *)

Definition sep : N := 47.      (* "/" *)
Definition extsep : N := 46.   (* "." *)

(** The [while] loop of [genericpath._splitext]: skip the leading dots
    of the base name; the first other character before [dotIndex]
    makes the split.  [fuel] bounds the iterations. *)
Fixpoint splitext_loop (p : pystr) (dotIndex : Z) (fuel : nat)
    (filenameIndex : Z) : option (pystr * pystr) :=
  match fuel with
  | O => None
  | S fuel' =>
      if filenameIndex <? dotIndex then
        if bool_decide (slice p filenameIndex (filenameIndex + 1) ≠ [extsep])
        then Some (slice_to p dotIndex, slice_from p dotIndex)
        else splitext_loop p dotIndex fuel' (filenameIndex + 1)
      else None
  end.

(** [os.path.splitext(p)] *)
Definition splitext (p : pystr) : pystr * pystr :=
  let sepIndex := rfind p sep in
  let dotIndex := rfind p extsep in
  if sepIndex <? dotIndex then
    let filenameIndex := sepIndex + 1 in
    match splitext_loop p dotIndex (Z.to_nat (dotIndex - filenameIndex))
            filenameIndex with
    | Some r => r
    | None => (p, [])
    end
  else (p, []).

(** [os.path.join(a, b)] *)
Definition os_path_join (a b : pystr) : pystr :=
  if startswith b sep then b
  else if bool_decide (a = []) || endswith a sep then a ++ b
  else a ++ sep :: b.

(** ** Configuration *)

Definition MAX_BYTES : Z := 2 * 1024 * 1024.
Definition ALLOWED_EXT : list pystr := [str ".ics"].
Definition MAX_CONTENT_LENGTH : Z := MAX_BYTES.

Definition allowed_filename (filename : pystr) : bool :=
  bool_decide (lower (splitext filename).2 ∈ ALLOWED_EXT).

(** ** JSON values, files, requests and responses *)

Inductive jval :=
  | JBool (b : bool)
  | JStr (s : pystr).

(** A dict with string keys, in insertion order. *)
Abbreviation jobj := (list (pystr * jval)).

Fixpoint dict_get (k : pystr) (o : jobj) : option jval :=
  match o with
  | [] => None
  | (k', v) :: r => if bool_decide (k' = k) then Some v else dict_get k r
  end.

(** What a path of the upload directory holds. *)
Inductive file :=
  | Bytes (b : list byte)   (* raw content, as [FileStorage.save] copies it *)
  | JsonText (o : jobj)     (* the text [json.dump] writes for [o] *)
  | JsonCut.                (* a strict prefix of such a text: a write cut short *)

(** [request.files["file"]] *)
Record FileStorage := {
  filename : pystr;
  stream : list byte;
}.

Record Request := {
  content_length : Z;                 (* length of the whole request body *)
  files_file : option FileStorage;    (* request.files.get("file") *)
  form_name : option pystr;           (* request.form.get("name") *)
  url_root : pystr;
}.

Inductive exn :=
  | HTTPException (code : Z)    (* abort(code); 413 is RequestEntityTooLarge *)
  | OSError (msg : pystr)
  | JSONDecodeError.

Inductive Response :=
  | Jsonify (body : jobj) (status : Z)
  | SendFile (content : file) (mimetype : pystr).

(** How a write to the disk goes.  A failing write raises [OSError msg]
    and leaves the path untouched ([written = None]: the open failed)
    or holding only the first [n] units of the content. *)
Inductive io_outcome :=
  | IoOk
  | IoFails (msg : pystr) (written : option nat).

Record Env := {
  uuid4_int : N;           (* the integer of the UUID drawn by uuid.uuid4() *)
  save_io : io_outcome;    (* uploaded.save(path) *)
  dump_io : io_outcome;    (* open(meta_path, "w") and json.dump *)
}.

(** ** The monad of the views: state of the upload directory, exceptions *)

Abbreviation FS := (gmap pystr file).

Definition M (A : Type) : Type := FS → (exn + A) * FS.

Definition ret {A} (a : A) : M A := λ fs, (inr a, fs).
Definition raise {A} (e : exn) : M A := λ fs, (inl e, fs).
Definition bind {A B} (m : M A) (k : A → M B) : M B :=
  λ fs, match m fs with
        | (inr a, fs') => k a fs'
        | (inl e, fs') => (inl e, fs')
        end.
(** [try: m except Exception as e: h e] *)
Definition try_except {A} (m : M A) (h : exn → M A) : M A :=
  λ fs, match m fs with
        | (inl e, fs') => h e fs'
        | r => r
        end.

Notation "'let*' x ':=' m 'in' k" := (bind m (λ x, k))
  (at level 10, x name, m at level 100, k at level 200, only parsing).

(** [str(e)]; the view applies it to what [FileStorage.save] raises,
    an [OSError], whose text is its message. *)
Definition str_of_exn (e : exn) : pystr :=
  match e with
  | OSError msg => msg
  | HTTPException code => str "HTTPException"
  | JSONDecodeError => str "JSONDecodeError"
  end.

(** [uuid.UUID.hex]: the 32 lowercase hexadecimal digits of the integer *)
Definition hex_digit (d : N) : N := (if d <? 10 then 48 + d else 87 + d)%N.

Fixpoint hex_digits (k : nat) (n : N) : pystr :=
  match k with
  | O => []
  | S k' => hex_digits k' (n / 16)%N ++ [hex_digit (n mod 16)%N]
  end.

Definition uuid4_hex (env : Env) : pystr := hex_digits 32 (uuid4_int env).

(** [FileStorage.save(dst)]: open [dst] for writing and copy the stream *)
Definition FileStorage_save (o : io_outcome) (uploaded : FileStorage)
    (dst : pystr) : M unit :=
  λ fs, match o with
        | IoOk => (inr tt, <[dst := Bytes (stream uploaded)]> fs)
        | IoFails msg None => (inl (OSError msg), fs)
        | IoFails msg (Some n) =>
            (inl (OSError msg), <[dst := Bytes (take n (stream uploaded))]> fs)
        end.

(** [with open(path, "w") as f: json.dump(obj, f)] *)
Definition json_dump_to (o : io_outcome) (obj : jobj) (path : pystr) : M unit :=
  λ fs, match o with
        | IoOk => (inr tt, <[path := JsonText obj]> fs)
        | IoFails msg None => (inl (OSError msg), fs)
        | IoFails msg (Some _) => (inl (OSError msg), <[path := JsonCut]> fs)
        end.

(** [os.path.exists(p)] *)
Definition os_path_exists (p : pystr) : M bool :=
  λ fs, (inr (bool_decide (is_Some (fs !! p))), fs).

(** [send_file(p, mimetype=...)]: the response carries the file at [p] *)
Definition send_file (p : pystr) (mimetype : pystr) : M Response :=
  λ fs, match fs !! p with
        | Some f => (inr (SendFile f mimetype), fs)
        | None => (inl (OSError (str "No such file or directory")), fs)
        end.

(** [request.files]: werkzeug parses the body on the first access and
    refuses one longer than [MAX_CONTENT_LENGTH] (set from [MAX_BYTES]). *)
Definition request_files (request : Request) : M (option FileStorage) :=
  if MAX_CONTENT_LENGTH <? content_length request
  then raise (HTTPException 413)
  else ret (files_file request).

Section Server.

(** [os.environ.get("UPLOAD_DIR", "/tmp/uploads")] *)
Variable UPLOAD_DIR : pystr.
(** [werkzeug.utils.secure_filename] *)
Variable secure_filename : pystr → pystr.
(** [json.load] of a file that [json.dump] did not write. *)
Variable json_loads : list byte → option jobj.

(** [json.load(f)] of the file at [p] *)
Definition json_load (p : pystr) : M jobj :=
  λ fs, match fs !! p with
        | Some (JsonText o) => (inr o, fs)
        | Some JsonCut => (inl JSONDecodeError, fs)
        | Some (Bytes b) =>
            match json_loads b with
            | Some o => (inr o, fs)
            | None => (inl JSONDecodeError, fs)
            end
        | None => (inl (OSError (str "No such file or directory")), fs)
        end.

(** [POST /upload] *)
Definition upload_schedule (env : Env) (request : Request) : M Response :=
  let* files := request_files request in
  match files with
  | None =>
      ret (Jsonify [(str "success", JBool false);
                    (str "error", JStr (str "No file provided"))] 400)
  | Some uploaded =>
      let name := strip (default [] (form_name request)) in
      if bool_decide (filename uploaded = []) then
        ret (Jsonify [(str "success", JBool false);
                      (str "error", JStr (str "No filename"))] 400)
      else if negb (allowed_filename (filename uploaded)) then
        ret (Jsonify [(str "success", JBool false);
                      (str "error", JStr (str "Only .ics files allowed"))] 400)
      else
        (* Save file *)
        let file_id := uuid4_hex env in
        let safe_orig := secure_filename (filename uploaded) in
        let file_name := file_id ++ str ".ics" in
        let path := os_path_join UPLOAD_DIR file_name in
        (* the except branch returns from the view: [Some response] *)
        let* returned :=
          try_except
            (let* _ := FileStorage_save (save_io env) uploaded path in ret None)
            (λ e, ret (Some (Jsonify
               [(str "success", JBool false);
                (str "error", JStr (str "Failed to save: " ++ str_of_exn e))]
               500))) in
        match returned with
        | Some response => ret response
        | None =>
            (* Save metadata JSON *)
            let meta_name :=
              if bool_decide (name = []) then str "Unnamed Student" else name in
            let meta := [(str "id", JStr file_id);
                         (str "name", JStr meta_name);
                         (str "orig_name", JStr safe_orig)] in
            let meta_path := os_path_join UPLOAD_DIR (file_id ++ str ".json") in
            let* _ := json_dump_to (dump_io env) meta meta_path in
            (* Provide share link *)
            let base := rstrip_char sep (url_root request) in
            let link := base ++ str "/s/" ++ file_id in
            ret (Jsonify [(str "success", JBool true);
                          (str "id", JStr file_id);
                          (str "name", JStr meta_name);
                          (str "link", JStr link)] 200)
        end
  end.

(** [GET /i/<file_id>]: the raw .ics file *)
Definition get_ics (file_id : pystr) : M Response :=
  let p := os_path_join UPLOAD_DIR (file_id ++ str ".ics") in
  let* exists_p := os_path_exists p in
  if negb exists_p then raise (HTTPException 404)
  else send_file p (str "text/calendar").

(** [GET /meta/<file_id>] *)
Definition get_meta (file_id : pystr) : M Response :=
  let p := os_path_join UPLOAD_DIR (file_id ++ str ".json") in
  let* exists_p := os_path_exists p in
  if negb exists_p then raise (HTTPException 404)
  else
    let* o := json_load p in
    ret (Jsonify o 200).

End Server.


(** ** Sequences of uploads *)

(** The two paths of an id. *)
Definition ics_path (UPLOAD_DIR file_id : pystr) : pystr :=
  os_path_join UPLOAD_DIR (file_id ++ str ".ics").

Definition json_path (UPLOAD_DIR file_id : pystr) : pystr :=
  os_path_join UPLOAD_DIR (file_id ++ str ".json").

(** The upload passes every check of the gateway. *)
Definition accepted (request : Request) (uploaded : FileStorage) : Prop :=
  content_length request ≤ MAX_BYTES
  ∧ files_file request = Some uploaded
  ∧ filename uploaded ≠ []
  ∧ allowed_filename (filename uploaded) = true.

(** The uploads of a run, each with what it draws from outside. *)
Fixpoint run (UPLOAD_DIR : pystr) (secure_filename : pystr → pystr)
    (calls : list (Env * Request)) (fs : FS) : list (exn + Response) * FS :=
  match calls with
  | [] => ([], fs)
  | c :: calls' =>
      let r := upload_schedule UPLOAD_DIR secure_filename c.1 c.2 fs in
      let rs := run UPLOAD_DIR secure_filename calls' r.2 in
      (r.1 :: rs.1, rs.2)
  end.

(** The states of the upload directory that uploads can produce from
    an empty one: after an upload, whatever its writes did, and inside
    an accepted upload, between the write of the payload and the write
    of the metadata. *)
Inductive reachable (UPLOAD_DIR : pystr) (secure_filename : pystr → pystr)
    : FS → Prop :=
  | reach_empty : reachable UPLOAD_DIR secure_filename ∅
  | reach_put env request fs :
      reachable UPLOAD_DIR secure_filename fs →
      reachable UPLOAD_DIR secure_filename
        (upload_schedule UPLOAD_DIR secure_filename env request fs).2
  | reach_between env request uploaded fs :
      reachable UPLOAD_DIR secure_filename fs →
      accepted request uploaded →
      reachable UPLOAD_DIR secure_filename
        (<[ics_path UPLOAD_DIR (uuid4_hex env) := Bytes (stream uploaded)]> fs).

(** ** Vocabulary of the statements *)



Definition display_name (request : Request) : pystr :=
  let name := strip (default [] (form_name request)) in
  if bool_decide (name = []) then str "Unnamed Student" else name.

Definition meta_of (secure_filename : pystr → pystr) (env : Env)
    (request : Request) (uploaded : FileStorage) : jobj :=
  [(str "id", JStr (uuid4_hex env));
   (str "name", JStr (display_name request));
   (str "orig_name", JStr (secure_filename (filename uploaded)))].

Definition success_body (env : Env) (request : Request) : jobj :=
  [(str "success", JBool true);
   (str "id", JStr (uuid4_hex env));
   (str "name", JStr (display_name request));
   (str "link", JStr (rstrip_char sep (url_root request) ++ str "/s/"
                      ++ uuid4_hex env))].

Definition error_body (msg : pystr) : jobj :=
  [(str "success", JBool false); (str "error", JStr msg)].

(** The id a response hands to the caller, if it is a success. *)
Definition response_id (r : exn + Response) : option pystr :=
  match r with
  | inr (Jsonify body 200) =>
      match dict_get (str "success") body, dict_get (str "id") body with
      | Some (JBool true), Some (JStr i) => Some i
      | _, _ => None
      end
  | _ => None
  end.

(** Wherever a [.json] file lies, the [.ics] file of the same stem
    lies too. *)
Definition paired (fs : FS) : Prop :=
  ∀ stem : pystr,
    is_Some (fs !! (stem ++ str ".json")) → is_Some (fs !! (stem ++ str ".ics")).

(** A name with a base name: after its last slash comes a character
    that is no dot. *)
Definition has_base_name (stem : pystr) : Prop :=
  ∃ dir c rest, stem = dir ++ (c :: rest) ∧ c ≠ extsep ∧ c ≠ sep ∧ sep ∉ rest.

(** A single extension: a dot, then neither dot nor slash. *)
Definition single_extension (ext : pystr) : Prop :=
  ∃ e, ext = extsep :: e ∧ (sep ∉ e) ∧ (extsep ∉ e).

(** A string of white space only (the empty one too). *)
Definition blank (s : pystr) : Prop := Forall (λ c, isspace c = true) s.

(** [shown] is [supplied] without the white space around it. *)
Definition trimmed (supplied shown : pystr) : Prop :=
  ∃ l r, supplied = l ++ shown ++ r ∧ blank l ∧ blank r
    ∧ (∀ c, head shown = Some c → isspace c = false)
    ∧ (∀ c, last shown = Some c → isspace c = false).

(** The checks of the gateway, as a test. *)
Definition passes_checks (request : Request) : bool :=
  bool_decide (content_length request ≤ MAX_BYTES)
  && match files_file request with
     | Some uploaded =>
         negb (bool_decide (filename uploaded = []))
         && allowed_filename (filename uploaded)
     | None => false
     end.

(** The ids drawn for the uploads of a run that reached the store. *)
Definition generated_ids (calls : list (Env * Request)) : list pystr :=
  omap (λ c, if passes_checks c.2 then Some (uuid4_hex c.1) else None) calls.

(** Every file of the directory is a file of one of the ids. *)
Definition known (UPLOAD_DIR : pystr) (ids : list pystr) (fs : FS) : Prop :=
  ∀ p, is_Some (fs !! p) →
    ∃ i, i ∈ ids ∧ startswith i sep = false
         ∧ (p = ics_path UPLOAD_DIR i ∨ p = json_path UPLOAD_DIR i).

Definition io_ok (c : Env * Request) : Prop :=
  save_io c.1 = IoOk ∧ dump_io c.1 = IoOk.

Definition NotFound {A} (r : (exn + A) * FS) : Prop := r.1 = inl (HTTPException 404).

(** ** The page view *)

(** What can leave the page view: an exception of the view itself, or
    the error that [render_template_string] raises on a text it cannot
    render. *)
Inductive page_exn :=
  | ViewError (e : exn)
  | TemplateError (msg : pystr).

(** A computation of the views, with its exceptions among those of the
    page view. *)
Definition lift_view {A} (m : M A) : FS → (page_exn + A) * FS :=
  λ fs, match m fs with
        | (inl e, fs') => (inl (ViewError e), fs')
        | (inr a, fs') => (inr a, fs')
        end.

Section Page.

Variable UPLOAD_DIR : pystr.
Variable json_loads : list byte → option jobj.
(** The text of the page, an f-string in the scope of [file_id] and [meta]. *)
Variable page_html : pystr → jobj → pystr.
(** [flask.render_template_string]: the page ([inr]), or the text of the
    template error it raises ([inl]). *)
Variable render_template_string : pystr → pystr + pystr.

(** [GET /s/<file_id>] *)
Definition schedule_page (file_id : pystr) : FS → (page_exn + pystr) * FS :=
  λ fs,
    let meta_path := os_path_join UPLOAD_DIR (file_id ++ str ".json") in
    match lift_view
            (let* exists_p := os_path_exists meta_path in
             if negb exists_p then raise (HTTPException 404)
             else json_load json_loads meta_path) fs with
    | (inl e, fs') => (inl e, fs')
    | (inr meta, fs') =>
        let html := page_html file_id meta in
        match render_template_string html with
        | inl msg => (inl (TemplateError msg), fs')
        | inr page => (inr page, fs')
        end
    end.

End Page.

(** ** Vocabulary of the further statements *)

(** What the page view makes of a page text: the page, or the template
    error, raised. *)
Definition rendered (render_template_string : pystr → pystr + pystr)
    (html : pystr) : page_exn + pystr :=
  match render_template_string html with
  | inl msg => inl (TemplateError msg)
  | inr page => inr page
  end.

(** Every file of the directory is a payload at the payload path of an
    id, or a metadata file at the metadata path of an id: a cut one, or
    the text of a dict whose "id" is that id. *)
Definition well_kept (UPLOAD_DIR : pystr) (fs : FS) : Prop :=
  ∀ p f, fs !! p = Some f →
    (∃ i b, p = ics_path UPLOAD_DIR i ∧ f = Bytes b)
    ∨ (∃ i, startswith i sep = false ∧ p = json_path UPLOAD_DIR i
            ∧ (f = JsonCut
               ∨ ∃ o, f = JsonText o ∧ dict_get (str "id") o = Some (JStr i))).

(** A lowercase hexadecimal digit. *)
Definition hex_char (c : N) : Prop := (48 ≤ c ≤ 57 ∨ 97 ≤ c ≤ 102)%N.

(** The number a string of hexadecimal digits writes, read after [acc]. *)
Definition hex_value_digit (c : N) : N := (if c <? 58 then c - 48 else c - 87)%N.

Definition hex_value (acc : N) (s : pystr) : N :=
  foldl (λ a c, a * 16 + hex_value_digit c)%N acc s.

(** ** Sample calls *)

(** The default upload directory. *)
Definition tmp_uploads : pystr := str "/tmp/uploads".

(** [werkzeug.utils.secure_filename] on POSIX, for names of ASCII
    characters (where the Unicode normalisation it starts with changes
    nothing): drop what is not ASCII, turn slashes into spaces, join
    the words with "_", keep letters, digits, "_", "." and "-", and
    strip dots and underscores from both ends. *)
Fixpoint join_words (s : pystr) (started gap : bool) : pystr :=
  match s with
  | [] => []
  | c :: r =>
      if isspace c then join_words r started started
      else (if gap then [95%N] else []) ++ c :: join_words r true false
  end.

Definition filename_char (c : N) : bool :=
  (((48 <=? c) && (c <=? 57)) || ((65 <=? c) && (c <=? 90))
   || ((97 <=? c) && (c <=? 122)) || (c =? 95) || (c =? 46) || (c =? 45))%N.

Definition dot_or_underscore (c : N) : bool := ((c =? 46) || (c =? 95))%N.

Definition secure_filename_ascii (filename : pystr) : pystr :=
  let filename := List.filter (λ c, c <? 128)%N filename in
  let filename := (λ c, if bool_decide (c = sep) then 32%N else c) <$> filename in
  let filename := List.filter filename_char (join_words filename false false) in
  rstrip_by dot_or_underscore (lstrip_by dot_or_underscore filename).

(** [json.load] on a file that holds no JSON text. *)
Definition no_json (b : list byte) : option jobj := None.

Definition calendar_a : list byte :=
  list_byte_of_string "BEGIN:VCALENDAR SUMMARY:Algebra END:VCALENDAR".

Definition calendar_b : list byte :=
  list_byte_of_string "BEGIN:VCALENDAR SUMMARY:Biology END:VCALENDAR".

Definition alice_upload : FileStorage :=
  {| filename := str "alice.ics"; stream := calendar_a |}.

Definition alice_request : Request :=
  {| content_length := 512;
     files_file := Some alice_upload;
     form_name := Some (str "  Alice ");
     url_root := str "http://localhost:5000/" |}.

Definition bob_upload : FileStorage :=
  {| filename := str "bob.ICS"; stream := calendar_b |}.

Definition bob_request : Request :=
  {| content_length := 498;
     files_file := Some bob_upload;
     form_name := None;
     url_root := str "http://localhost:5000/" |}.

(** The bytes of Alice under a name that tries to leave the directory. *)
Definition traversal_upload : FileStorage :=
  {| filename := str "../../etc/passwd.ics"; stream := calendar_a |}.

Definition traversal_request : Request :=
  {| content_length := 530;
     files_file := Some traversal_upload;
     form_name := Some (str "Mallory");
     url_root := str "http://localhost:5000/" |}.

Definition notes_request : Request :=
  {| content_length := 300;
     files_file := Some {| filename := str "notes.txt"; stream := calendar_a |};
     form_name := Some (str "Alice");
     url_root := str "http://localhost:5000/" |}.

Definition bare_upload : FileStorage :=
  {| filename := str ".ics"; stream := calendar_a |}.

Definition bare_request : Request :=
  {| content_length := 300;
     files_file := Some bare_upload;
     form_name := Some (str "Alice");
     url_root := str "http://localhost:5000/" |}.





Definition disk_full : pystr := str "[Errno 28] No space left on device".

(** Two draws of [uuid.uuid4()], and the first one again with a write
    that fails. *)
Definition draw_one : Env :=
  {| uuid4_int := 0x3f2b8c1e9a704d56b1c2d3e4f5a6b7c8;
     save_io := IoOk; dump_io := IoOk |}.

Definition draw_two : Env :=
  {| uuid4_int := 0x7d1e0a4c55b2491f8e6f0123456789ab;
     save_io := IoOk; dump_io := IoOk |}.

Definition draw_one_dump_fails : Env :=
  {| uuid4_int := 0x3f2b8c1e9a704d56b1c2d3e4f5a6b7c8;
     save_io := IoOk; dump_io := IoFails disk_full None |}.

Definition draw_one_save_fails : Env :=
  {| uuid4_int := 0x3f2b8c1e9a704d56b1c2d3e4f5a6b7c8;
     save_io := IoFails disk_full None; dump_io := IoOk |}.

Definition id_one : pystr := str "3f2b8c1e9a704d56b1c2d3e4f5a6b7c8".
Definition id_two : pystr := str "7d1e0a4c55b2491f8e6f0123456789ab".

(** The directory after the upload of Alice with the first draw, and
    after the upload of Bob with the same draw again. *)
Definition after_alice : FS :=
  (upload_schedule tmp_uploads secure_filename_ascii draw_one alice_request ∅).2.

Definition after_alice_then_bob_same_draw : FS :=
  (upload_schedule tmp_uploads secure_filename_ascii draw_one bob_request
     after_alice).2.

(** A page text, and a rendering that raises as Jinja does on a text
    it cannot parse. *)
Definition sample_page_html (file_id : pystr) (meta : jobj) : pystr :=
  str "<!doctype html>{{ font-family: 'Lato', sans-serif; }}".

Definition sample_render (html : pystr) : pystr + pystr :=
  inl (str "expected token 'end of print statement', got ':'").

(** Alice's upload again, with the text of the placeholder as her name. *)
Definition placeholder_request : Request :=
  {| content_length := 512;
     files_file := Some alice_upload;
     form_name := Some (str "Unnamed Student");
     url_root := str "http://localhost:5000/" |}.

Arguments str : simpl never.
Arguments uuid4_hex : simpl never.
Arguments MAX_BYTES : simpl never.

(** * Properties *)

(** ** The model on sample inputs *)

Example splitext_samples :
  splitext (str "alice.ics") = (str "alice", str ".ics")
  ∧ splitext (str "a.tar.ICS") = (str "a.tar", str ".ICS")
  ∧ splitext (str ".ics") = (str ".ics", [])
  ∧ splitext (str "dir.d/name") = (str "dir.d/name", [])
  ∧ splitext (str "dir.d/..ics") = (str "dir.d/..ics", [])
  ∧ splitext (str "...x.y") = (str "...x", str ".y").
Proof. repeat split; reflexivity. Qed.

Example allowed_filename_samples :
  allowed_filename (str "alice.ics") = true
  ∧ allowed_filename (str "alice.IcS") = true
  ∧ allowed_filename (str "alice.ics.txt") = false
  ∧ allowed_filename (str "alice") = false
  ∧ allowed_filename (str ".ics") = false.
Proof. repeat split; reflexivity. Qed.

Example os_path_join_samples :
  os_path_join (str "/tmp/uploads") (str "x.ics") = str "/tmp/uploads/x.ics"
  ∧ os_path_join (str "/uploads/") (str "x.ics") = str "/uploads/x.ics"
  ∧ os_path_join (str "/tmp/uploads") (str "/etc/x.ics") = str "/etc/x.ics".
Proof. repeat split; reflexivity. Qed.

Example strip_samples :
  strip (str "  Alice ") = str "Alice"
  ∧ strip (str " Alice  B ") = str "Alice  B"
  ∧ strip [9; 32; 10; 160; 8195]%N = []
  ∧ rstrip_char sep (str "http://localhost:5000/") = str "http://localhost:5000".
Proof. repeat split; reflexivity. Qed.

Example secure_filename_samples :
  secure_filename_ascii (str "alice.ics") = str "alice.ics"
  ∧ secure_filename_ascii (str "My cool movie.mov") = str "My_cool_movie.mov"
  ∧ secure_filename_ascii (str "../../etc/passwd.ics") = str "etc_passwd.ics".
Proof. repeat split; reflexivity. Qed.

(** The example of the specification: Alice uploads "alice.ics". *)
Example alice_upload_response :
  (upload_schedule tmp_uploads secure_filename_ascii draw_one alice_request ∅).1
  = inr (Jsonify [(str "success", JBool true);
                  (str "id", JStr id_one);
                  (str "name", JStr (str "Alice"));
                  (str "link", JStr (str "http://localhost:5000/s/" ++ id_one))]
           200).
Proof. by vm_compute. Qed.

Example alice_record :
  (get_meta tmp_uploads no_json id_one after_alice).1
  = inr (Jsonify [(str "id", JStr id_one);
                  (str "name", JStr (str "Alice"));
                  (str "orig_name", JStr (str "alice.ics"))] 200).
Proof. by vm_compute. Qed.

Example alice_artifact :
  (get_ics tmp_uploads id_one after_alice).1
  = inr (SendFile (Bytes calendar_a) (str "text/calendar")).
Proof. by vm_compute. Qed.

(** Bob sends no name: the record carries the placeholder. *)
Example bob_record :
  (get_meta tmp_uploads no_json id_two
     (upload_schedule tmp_uploads secure_filename_ascii draw_two bob_request ∅).2).1
  = inr (Jsonify [(str "id", JStr id_two);
                  (str "name", JStr (str "Unnamed Student"));
                  (str "orig_name", JStr (str "bob.ICS"))] 200).
Proof. by vm_compute. Qed.

(** ** Strings and paths *)


Lemma ext_ics_eq : str ".ics" = [46; 105; 99; 115]%N.
Proof. reflexivity. Qed.

Lemma ext_json_eq : str ".json" = [46; 106; 115; 111; 110]%N.
Proof. reflexivity. Qed.

Lemma allowed_filename_ext f :
  allowed_filename f = bool_decide (lower (splitext f).2 = str ".ics").
Proof.
  unfold allowed_filename, ALLOWED_EXT. apply bool_decide_ext.
  apply list_elem_of_singleton.
Qed.

(** [strip]: what is cut and what is left *)

Lemma lstrip_by_split P s :
  ∃ l, s = l ++ lstrip_by P s ∧ Forall (λ c, P c = true) l
       ∧ ∀ c, head (lstrip_by P s) = Some c → P c = false.
Proof.
  induction s as [|x s (l & Hs & Hl & Hhead)].
  - exists []. repeat split; [constructor | done].
  - cbn [lstrip_by]. destruct (P x) eqn:Hx.
    + exists (x :: l). repeat split; [by rewrite Hs at 1 | by constructor | done].
    + exists []. repeat split; [constructor|]. intros c [= <-]. done.
Qed.

Lemma rstrip_by_split P s :
  ∃ r, s = rstrip_by P s ++ r ∧ Forall (λ c, P c = true) r
       ∧ ∀ c, last (rstrip_by P s) = Some c → P c = false.
Proof.
  induction s as [|x s (r & Hs & Hr & Hlast)].
  - exists []. repeat split; [constructor | done].
  - cbn [rstrip_by]. destruct (rstrip_by P s) as [|y t] eqn:Ht.
    + destruct (P x) eqn:Hx.
      * exists (x :: r). cbn [app] in *. repeat split; [by rewrite Hs at 1 | by constructor | done].
      * exists r. cbn [app] in *. repeat split; [by rewrite Hs at 1 | done |].
        intros c [= <-]. done.
    + exists r. repeat split; [by rewrite Hs at 1 | done |].
      intros c Hc. apply Hlast. exact Hc.
Qed.

Lemma rstrip_by_head P s : rstrip_by P s ≠ [] → head (rstrip_by P s) = head s.
Proof.
  destruct s as [|x s]; [done|]. cbn [rstrip_by].
  destruct (rstrip_by P s); [destruct (P x)|]; done.
Qed.

Lemma lstrip_by_nil P s : lstrip_by P s = [] ↔ Forall (λ c, P c = true) s.
Proof.
  split.
  - intros H. destruct (lstrip_by_split P s) as (l & Hs & Hl & _).
    rewrite H, app_nil_r in Hs. by subst.
  - induction 1 as [|x s Hx _ IH]; [done|]. cbn [lstrip_by]. by rewrite Hx.
Qed.

Lemma rstrip_by_nil P s : rstrip_by P s = [] ↔ Forall (λ c, P c = true) s.
Proof.
  split.
  - intros H. destruct (rstrip_by_split P s) as (r & Hs & Hr & _).
    rewrite H in Hs. by subst.
  - induction 1 as [|x s Hx _ IH]; [done|]. cbn [rstrip_by]. by rewrite IH, Hx.
Qed.

Lemma strip_nil s : strip s = [] ↔ blank s.
Proof.
  unfold strip, blank. rewrite rstrip_by_nil.
  destruct (lstrip_by_split isspace s) as (l & Hs & Hl & _).
  rewrite Hs at 2. rewrite Forall_app. tauto.
Qed.

Lemma strip_trimmed s : trimmed s (strip s).
Proof.
  unfold strip.
  destruct (lstrip_by_split isspace s) as (l & Hs & Hl & Hhead).
  destruct (rstrip_by_split isspace (lstrip_by isspace s)) as (r & Ht & Hr & Hlast).
  exists l, r. repeat split; try done.
  - rewrite Hs at 1. by rewrite Ht at 1.
  - intros c Hc. apply Hhead. rewrite rstrip_by_head in Hc; [done|].
    intros Hnil. by rewrite Hnil in Hc.
Qed.

(** [rfind]: the last occurrence *)

Lemma rfind_from_app s1 s2 c i best :
  rfind_from (s1 ++ s2) c i best
  = rfind_from s2 c (i + Z.of_nat (length s1)) (rfind_from s1 c i best).
Proof.
  revert i best. induction s1 as [|x s1 IH]; intros i best.
  - cbn [app length rfind_from]. f_equal. lia.
  - cbn [app length rfind_from]. rewrite IH. f_equal. lia.
Qed.

Lemma rfind_from_notin s c i best : c ∉ s → rfind_from s c i best = best.
Proof.
  revert i. induction s as [|x s IH]; intros i Hc; [done|].
  apply not_elem_of_cons in Hc as [Hx Hs]. cbn [rfind_from].
  rewrite bool_decide_eq_false_2 by congruence. by apply IH.
Qed.

Lemma rfind_from_range s c i best :
  rfind_from s c i best = best
  ∨ i ≤ rfind_from s c i best < i + Z.of_nat (length s).
Proof.
  revert i best. induction s as [|x s IH]; intros i best; [by left|].
  cbn [rfind_from length].
  destruct (IH (i + 1) (if bool_decide (x = c) then i else best)) as [->|H].
  - case_bool_decide; [right; lia | by left].
  - right. lia.
Qed.

Lemma rfind_last a c b : c ∉ b → rfind (a ++ c :: b) c = Z.of_nat (length a).
Proof.
  intros Hc. unfold rfind. rewrite rfind_from_app. cbn [rfind_from].
  rewrite bool_decide_eq_true_2 by done. by rewrite rfind_from_notin.
Qed.

Lemma rfind_lt a b c : c ∉ b → -1 ≤ rfind (a ++ b) c < Z.of_nat (length a).
Proof.
  intros Hc. unfold rfind. rewrite rfind_from_app, (rfind_from_notin b) by done.
  destruct (rfind_from_range a c 0 (-1)) as [->|H]; lia.
Qed.

Lemma slice_single (p : pystr) j c :
  p !! j = Some c → slice p (Z.of_nat j) (Z.of_nat j + 1) = [c].
Proof.
  intros Hj. unfold slice.
  replace (Z.to_nat (Z.of_nat j + 1 - Z.of_nat j)) with 1%nat by lia.
  rewrite Nat2Z.id. by rewrite (drop_S _ _ _ Hj).
Qed.

(** The loop stops at the first character of the base name that is no dot. *)
Lemma splitext_loop_hit p dotIndex j c :
  p !! j = Some c → c ≠ extsep → Z.of_nat j < dotIndex →
  ∀ fuel start,
    0 ≤ start ≤ Z.of_nat j → Z.of_nat j - start < Z.of_nat fuel →
    splitext_loop p dotIndex fuel start
    = Some (slice_to p dotIndex, slice_from p dotIndex).
Proof.
  intros Hj Hc Hdot. induction fuel as [|fuel IH]; intros start Hstart Hfuel; [lia|].
  cbn [splitext_loop].
  destruct (Z.ltb_spec start dotIndex) as [_|?]; [|lia].
  case_bool_decide as Hdots; [done|].
  apply IH; [|lia].
  assert (start ≠ Z.of_nat j); [|lia].
  intros ->. rewrite (slice_single _ _ _ Hj) in Hdots. congruence.
Qed.

(** A name with a base name (a character that is no dot after the last
    slash) and one last dot splits at that dot. *)
Lemma splitext_app dir c rest e :
  c ≠ extsep → c ≠ sep → sep ∉ rest → sep ∉ e → extsep ∉ e →
  splitext ((dir ++ c :: rest) ++ extsep :: e) = (dir ++ c :: rest, extsep :: e).
Proof.
  intros Hc Hcs Hrest Hse He. unfold splitext.
  rewrite (rfind_last _ extsep) by done.
  assert (-1 ≤ rfind ((dir ++ c :: rest) ++ extsep :: e) sep < Z.of_nat (length dir))
    as Hsep.
  { rewrite <- app_assoc. apply rfind_lt.
    cbn [app]. rewrite not_elem_of_cons, not_elem_of_app, not_elem_of_cons.
    repeat split; try done; by apply not_eq_sym. }
  set (sepIndex := rfind _ sep) in *.
  rewrite length_app. cbn [length].
  destruct (Z.ltb_spec sepIndex (Z.of_nat (length dir + S (length rest))));
    [|lia].
  rewrite (splitext_loop_hit _ _ (length dir) c); try done; try lia.
  - unfold slice_to, slice_from.
    rewrite Nat2Z.id.
    replace (length dir + S (length rest))%nat with (length (dir ++ c :: rest))
      by (rewrite length_app; done).
    by rewrite take_app_length, drop_app_length.
  - rewrite <- app_assoc. apply list_lookup_middle. done.
Qed.

Lemma hex_digit_not_sep d : hex_digit d ≠ sep.
Proof. unfold hex_digit, sep. destruct (N.ltb_spec d 10); lia. Qed.

Lemma hex_digits_no_sep k n : Forall (λ c, c ≠ sep) (hex_digits k n).
Proof.
  revert n. induction k as [|k IH]; intros n; simpl; [constructor|].
  apply Forall_app. split; [apply IH|].
  constructor; [apply hex_digit_not_sep | constructor].
Qed.

Lemma no_sep_startswith s : Forall (λ c, c ≠ sep) s → startswith s sep = false.
Proof.
  destruct s as [|c r]; [done|]. intros H. apply Forall_cons in H as [H _].
  simpl. by apply bool_decide_eq_false_2.
Qed.

Lemma uuid4_hex_no_sep env : Forall (λ c, c ≠ sep) (uuid4_hex env).
Proof. apply hex_digits_no_sep. Qed.

Lemma uuid4_hex_startswith env : startswith (uuid4_hex env) sep = false.
Proof. apply no_sep_startswith, uuid4_hex_no_sep. Qed.

(** Joining a name that carries a suffix: the suffix stays at the end. *)
Lemma os_path_join_app d x c s :
  c ≠ sep → os_path_join d (x ++ c :: s) = os_path_join d x ++ c :: s.
Proof.
  intros Hc. unfold os_path_join.
  destruct x as [|y x]; simpl.
  - rewrite bool_decide_eq_false_2 by done.
    destruct (bool_decide (d = []) || endswith d sep).
    + by rewrite app_nil_r.
    + by rewrite <- app_assoc.
  - destruct (bool_decide (y = sep)); [done|].
    destruct (bool_decide (d = []) || endswith d sep).
    + by rewrite <- app_assoc.
    + by rewrite <- app_assoc.
Qed.

Lemma os_path_join_inj d x y :
  startswith x sep = false → startswith y sep = false →
  os_path_join d x = os_path_join d y → x = y.
Proof.
  unfold os_path_join. intros -> ->.
  destruct (bool_decide (d = []) || endswith d sep); intros H.
  - by apply app_inv_head in H.
  - apply app_inv_head in H. by injection H.
Qed.

Lemma ics_path_app d i : ics_path d i = os_path_join d i ++ str ".ics".
Proof. unfold ics_path. rewrite ext_ics_eq. by apply os_path_join_app. Qed.

Lemma json_path_app d i : json_path d i = os_path_join d i ++ str ".json".
Proof. unfold json_path. rewrite ext_json_eq. by apply os_path_join_app. Qed.

Lemma suffix_ics_json_ne (a b : pystr) : a ++ str ".ics" ≠ b ++ str ".json".
Proof.
  rewrite ext_ics_eq, ext_json_eq. intros H.
  apply (f_equal reverse) in H. rewrite !reverse_app in H.
  simpl in H. discriminate H.
Qed.

Lemma ics_json_path_ne d i j : ics_path d i ≠ json_path d j.
Proof. rewrite ics_path_app, json_path_app. apply suffix_ics_json_ne. Qed.

Lemma ics_path_inj d i j :
  startswith i sep = false → startswith j sep = false →
  ics_path d i = ics_path d j → i = j.
Proof.
  rewrite !ics_path_app. intros Hi Hj H.
  apply app_inv_tail in H. eauto using os_path_join_inj.
Qed.

Lemma json_path_inj d i j :
  startswith i sep = false → startswith j sep = false →
  json_path d i = json_path d j → i = j.
Proof.
  rewrite !json_path_app. intros Hi Hj H.
  apply app_inv_tail in H. eauto using os_path_join_inj.
Qed.

(** ** The views *)

Section Facts.

Variable UPLOAD_DIR : pystr.
Variable secure_filename : pystr → pystr.
Variable json_loads : list byte → option jobj.

Local Abbreviation upload := (upload_schedule UPLOAD_DIR secure_filename).
Local Abbreviation artifact := (get_ics UPLOAD_DIR).
Local Abbreviation record := (get_meta UPLOAD_DIR json_loads).
Local Abbreviation ics := (ics_path UPLOAD_DIR).
Local Abbreviation json := (json_path UPLOAD_DIR).

(** *** What an upload does, case by case *)

Lemma upload_accepted env request uploaded fs :
  accepted request uploaded →
  upload env request fs =
    match save_io env with
    | IoOk =>
        let fs1 := <[ics (uuid4_hex env) := Bytes (stream uploaded)]> fs in
        match dump_io env with
        | IoOk =>
            (inr (Jsonify (success_body env request) 200),
             <[json (uuid4_hex env) :=
                 JsonText (meta_of secure_filename env request uploaded)]> fs1)
        | IoFails msg None => (inl (OSError msg), fs1)
        | IoFails msg (Some _) =>
            (inl (OSError msg), <[json (uuid4_hex env) := JsonCut]> fs1)
        end
    | IoFails msg None =>
        (inr (Jsonify (error_body (str "Failed to save: " ++ msg)) 500), fs)
    | IoFails msg (Some n) =>
        (inr (Jsonify (error_body (str "Failed to save: " ++ msg)) 500),
         <[ics (uuid4_hex env) := Bytes (take n (stream uploaded))]> fs)
    end.
Proof.
  intros (Hlen & Hfile & Hname & Hext).
  unfold upload_schedule, request_files, bind, ret, raise, try_except.
  destruct (Z.ltb_spec MAX_CONTENT_LENGTH (content_length request)) as [Hgt|_];
    [unfold MAX_CONTENT_LENGTH in Hgt; lia|].
  cbv beta iota.
  rewrite Hfile, bool_decide_eq_false_2 by exact Hname. rewrite Hext.
  cbv beta iota delta [negb].
  unfold FileStorage_save, json_dump_to.
  destruct (save_io env) as [|msg [n|]]; cbv beta iota; [|reflexivity..].
  destruct (dump_io env) as [|msg [n|]]; reflexivity.
Qed.

Lemma upload_too_large env request fs :
  MAX_BYTES < content_length request →
  upload env request fs = (inl (HTTPException 413), fs).
Proof.
  intros Hgt. unfold upload_schedule, request_files, bind, raise.
  destruct (Z.ltb_spec MAX_CONTENT_LENGTH (content_length request)) as [_|Hle];
    [done | unfold MAX_CONTENT_LENGTH in Hle; lia].
Qed.

Lemma upload_no_file env request fs :
  content_length request ≤ MAX_BYTES → files_file request = None →
  upload env request fs =
    (inr (Jsonify (error_body (str "No file provided")) 400), fs).
Proof.
  intros Hle Hfile. unfold upload_schedule, request_files, bind, ret.
  destruct (Z.ltb_spec MAX_CONTENT_LENGTH (content_length request)) as [Hgt|_];
    [unfold MAX_CONTENT_LENGTH in Hgt; lia|].
  cbv beta iota. by rewrite Hfile.
Qed.

Lemma upload_no_filename env request uploaded fs :
  content_length request ≤ MAX_BYTES → files_file request = Some uploaded →
  filename uploaded = [] →
  upload env request fs =
    (inr (Jsonify (error_body (str "No filename")) 400), fs).
Proof.
  intros Hle Hfile Hname. unfold upload_schedule, request_files, bind, ret.
  destruct (Z.ltb_spec MAX_CONTENT_LENGTH (content_length request)) as [Hgt|_];
    [unfold MAX_CONTENT_LENGTH in Hgt; lia|].
  cbv beta iota. rewrite Hfile. by rewrite bool_decide_eq_true_2.
Qed.

Lemma upload_not_allowed env request uploaded fs :
  content_length request ≤ MAX_BYTES → files_file request = Some uploaded →
  filename uploaded ≠ [] → allowed_filename (filename uploaded) = false →
  upload env request fs =
    (inr (Jsonify (error_body (str "Only .ics files allowed")) 400), fs).
Proof.
  intros Hle Hfile Hname Hext. unfold upload_schedule, request_files, bind, ret.
  destruct (Z.ltb_spec MAX_CONTENT_LENGTH (content_length request)) as [Hgt|_];
    [unfold MAX_CONTENT_LENGTH in Hgt; lia|].
  cbv beta iota. rewrite Hfile, bool_decide_eq_false_2 by exact Hname.
  by rewrite Hext.
Qed.

(** An upload that some check refuses leaves the directory as it was
    and hands out no id. *)
Lemma upload_refused env request fs :
  (∀ uploaded, ¬ accepted request uploaded) →
  (upload env request fs).2 = fs ∧ response_id (upload env request fs).1 = None.
Proof.
  intros Hno.
  destruct (Z.lt_ge_cases MAX_BYTES (content_length request)) as [Hgt|Hle].
  { by rewrite upload_too_large. }
  destruct (files_file request) as [uploaded|] eqn:Hfile.
  2:{ by rewrite upload_no_file. }
  destruct (decide (filename uploaded = [])) as [Hname|Hname].
  { by rewrite (upload_no_filename _ _ uploaded). }
  destruct (allowed_filename (filename uploaded)) eqn:Hext.
  { destruct (Hno uploaded). by repeat split. }
  by rewrite (upload_not_allowed _ _ uploaded).
Qed.

Lemma get_ics_spec file_id fs :
  artifact file_id fs =
    (match fs !! ics file_id with
     | Some f => inr (SendFile f (str "text/calendar"))
     | None => inl (HTTPException 404)
     end, fs).
Proof.
  unfold get_ics, bind, os_path_exists, raise, send_file, ics_path.
  destruct (fs !! _) as [f|] eqn:Hp.
  - rewrite bool_decide_eq_true_2 by eauto. cbv beta iota delta [negb].
    by rewrite Hp.
  - rewrite bool_decide_eq_false_2 by (intros [? ?]; done). done.
Qed.

Lemma get_meta_spec file_id fs :
  record file_id fs =
    (match fs !! json file_id with
     | Some (JsonText o) => inr (Jsonify o 200)
     | Some JsonCut => inl JSONDecodeError
     | Some (Bytes b) =>
         match json_loads b with
         | Some o => inr (Jsonify o 200)
         | None => inl JSONDecodeError
         end
     | None => inl (HTTPException 404)
     end, fs).
Proof.
  unfold get_meta, bind, os_path_exists, raise, json_load, ret, json_path.
  destruct (fs !! _) as [f|] eqn:Hp.
  - rewrite bool_decide_eq_true_2 by eauto. cbv beta iota delta [negb].
    rewrite Hp. destruct f as [b|o|]; [destruct (json_loads b)|..]; done.
  - rewrite bool_decide_eq_false_2 by (intros [? ?]; done). done.
Qed.

Lemma accepted_or_refused request :
  (∃ uploaded, accepted request uploaded) ∨ (∀ uploaded, ¬ accepted request uploaded).
Proof.
  unfold accepted.
  destruct (Z.lt_ge_cases MAX_BYTES (content_length request)) as [Hgt|Hle].
  { right. intros uploaded (H & _). lia. }
  destruct (files_file request) as [uploaded|] eqn:Hfile.
  2:{ right. by intros uploaded (_ & H & _). }
  destruct (decide (filename uploaded = [])) as [Hname|Hname].
  { right. intros uploaded' (_ & [= ->] & H & _). done. }
  destruct (allowed_filename (filename uploaded)) eqn:Hext.
  { left. by exists uploaded. }
  right. intros uploaded' (_ & [= ->] & _ & H). congruence.
Qed.

Lemma response_id_success env request :
  response_id (inr (Jsonify (success_body env request) 200))
  = Some (uuid4_hex env).
Proof. reflexivity. Qed.

Lemma response_id_error msg status :
  response_id (inr (Jsonify (error_body msg) status)) = None.
Proof.
  assert (dict_get (str "success") (error_body msg) = Some (JBool false)) as H
    by reflexivity.
  unfold response_id. rewrite H.
  destruct status as [|p|p]; try reflexivity.
  do 8 (destruct p as [p|p|]; try reflexivity).
Qed.

(** An upload hands out no other id than the one drawn for it, and
    only after both writes. *)
Lemma response_id_upload env request fs file_id :
  response_id (upload env request fs).1 = Some file_id →
  file_id = uuid4_hex env ∧ save_io env = IoOk ∧ dump_io env = IoOk
  ∧ ∃ uploaded, accepted request uploaded.
Proof.
  intros Hid.
  destruct (accepted_or_refused request) as [[uploaded Hacc]|Hno].
  2:{ destruct (upload_refused env request fs Hno) as [_ Hnone]. congruence. }
  rewrite (upload_accepted _ _ _ _ Hacc) in Hid.
  destruct (save_io env) as [|msg [n|]]; cbn [fst] in Hid;
    [|by rewrite response_id_error in Hid..].
  destruct (dump_io env) as [|msg [n|]]; cbn [fst] in Hid; [|done..].
  rewrite response_id_success in Hid. injection Hid as <-. eauto.
Qed.

(** *** Round trip *)

(** C1: for every upload the gateway accepts (payload present,
    non-empty filename with an allowed extension, size within the
    ceiling), a write that goes through makes the upload return the
    drawn id, and looking up the artifact under the id an upload
    returned yields exactly the uploaded bytes. *)
Theorem roundtrip_identity env request uploaded fs :
  accepted request uploaded →
  (save_io env = IoOk → dump_io env = IoOk →
   response_id (upload env request fs).1 = Some (uuid4_hex env))
  ∧ ∀ file_id,
      response_id (upload env request fs).1 = Some file_id →
      artifact file_id (upload env request fs).2
      = (inr (SendFile (Bytes (stream uploaded)) (str "text/calendar")),
         (upload env request fs).2).
Proof.
  intros Hacc. split.
  - intros Hs Hd. rewrite (upload_accepted _ _ _ _ Hacc), Hs, Hd.
    apply response_id_success.
  - intros file_id Hid.
    destruct (response_id_upload _ _ _ _ Hid) as (-> & Hs & Hd & _).
    rewrite get_ics_spec. rewrite (upload_accepted _ _ _ _ Hacc), Hs, Hd.
    cbn [snd].
    rewrite lookup_insert_ne by (intros H; symmetry in H; by apply ics_json_path_ne in H).
    by rewrite lookup_insert_eq.
Qed.

Lemma lookup_ics_insert_json (fs : FS) i j f :
  <[json j := f]> fs !! ics i = fs !! ics i.
Proof.
  apply lookup_insert_ne. intros H. symmetry in H. by apply ics_json_path_ne in H.
Qed.

Lemma lookup_json_insert_ics (fs : FS) i j f :
  <[ics i := f]> fs !! json j = fs !! json j.
Proof. apply lookup_insert_ne, ics_json_path_ne. Qed.

(** The paths an upload writes are the two paths of its id. *)
Lemma upload_other_paths env request fs p :
  p ≠ ics (uuid4_hex env) → p ≠ json (uuid4_hex env) →
  (upload env request fs).2 !! p = fs !! p.
Proof.
  intros Hi Hj.
  destruct (accepted_or_refused request) as [[uploaded Hacc]|Hno].
  2:{ by destruct (upload_refused env request fs Hno) as [-> _]. }
  rewrite (upload_accepted _ _ _ _ Hacc).
  destruct (save_io env) as [|msg [n|]]; [destruct (dump_io env) as [|msg [n|]]|..];
    cbn [snd]; by rewrite ?lookup_insert_ne.
Qed.

(** *** The payload is stored under the id alone *)

(** C8: the path of the payload is computed from the upload directory
    and the drawn id, never from the filename.  Two accepted uploads
    of the same bytes, whatever their filenames and display names,
    return the same id for the same draw and leave every artifact
    lookup with the same answer; no path other than the two paths of
    the id is written. *)
Theorem artifact_location_ignores_filename env fs
    request1 uploaded1 request2 uploaded2 :
  accepted request1 uploaded1 → accepted request2 uploaded2 →
  stream uploaded1 = stream uploaded2 →
  response_id (upload env request1 fs).1 = response_id (upload env request2 fs).1
  ∧ (∀ file_id,
       (artifact file_id (upload env request1 fs).2).1
       = (artifact file_id (upload env request2 fs).2).1)
  ∧ (save_io env = IoOk →
     (upload env request1 fs).2 !! ics (uuid4_hex env)
     = Some (Bytes (stream uploaded1)))
  ∧ (∀ p, p ≠ ics (uuid4_hex env) → p ≠ json (uuid4_hex env) →
       (upload env request1 fs).2 !! p = fs !! p).
Proof.
  intros Hacc1 Hacc2 Hstream. repeat split.
  - rewrite (upload_accepted _ _ _ _ Hacc1), (upload_accepted _ _ _ _ Hacc2).
    destruct (save_io env) as [|msg [n|]];
      [destruct (dump_io env) as [|msg [n|]]|..]; cbn [fst];
      by rewrite ?response_id_success, ?response_id_error.
  - intros file_id. rewrite !get_ics_spec. cbn [fst].
    rewrite (upload_accepted _ _ _ _ Hacc1), (upload_accepted _ _ _ _ Hacc2).
    rewrite Hstream.
    destruct (save_io env) as [|msg [n|]];
      [destruct (dump_io env) as [|msg [n|]]|..]; cbn [snd];
      by rewrite ?lookup_ics_insert_json.
  - intros Hs. rewrite (upload_accepted _ _ _ _ Hacc1), Hs.
    destruct (dump_io env) as [|msg [n|]]; cbn [snd];
      by rewrite ?lookup_ics_insert_json, lookup_insert_eq.
  - intros p. apply upload_other_paths.
Qed.

(** *** A record never comes without its artifact *)

Lemma paired_empty : paired ∅.
Proof. intros stem [f Hf]. by rewrite lookup_empty in Hf. Qed.

Lemma paired_insert_ics fs stem0 f :
  paired fs → paired (<[stem0 ++ str ".ics" := f]> fs).
Proof.
  intros Hfs stem. rewrite lookup_insert_ne by apply suffix_ics_json_ne.
  intros H. apply Hfs in H. rewrite lookup_insert. by case_decide.
Qed.

Lemma paired_insert_json fs stem0 f :
  is_Some (fs !! (stem0 ++ str ".ics")) → paired fs →
  paired (<[stem0 ++ str ".json" := f]> fs).
Proof.
  intros H0 Hfs stem.
  rewrite (lookup_insert_ne _ _ (stem ++ str ".ics"))
    by (intros H; symmetry in H; by apply suffix_ics_json_ne in H).
  rewrite lookup_insert. case_decide as Heq.
  - apply app_inv_tail in Heq as <-. by intros _.
  - apply Hfs.
Qed.

Lemma paired_upload env request fs :
  paired fs → paired (upload env request fs).2.
Proof.
  intros Hfs.
  destruct (accepted_or_refused request) as [[uploaded Hacc]|Hno].
  2:{ by destruct (upload_refused env request fs Hno) as [-> _]. }
  rewrite (upload_accepted _ _ _ _ Hacc).
  unfold ics_path, json_path. rewrite ext_ics_eq, ext_json_eq.
  rewrite !os_path_join_app by done. rewrite <- ext_ics_eq, <- ext_json_eq.
  destruct (save_io env) as [|msg [n|]];
    [destruct (dump_io env) as [|msg [n|]]|..]; cbn [snd];
    repeat first
      [ assumption
      | apply paired_insert_ics
      | apply paired_insert_json; [by rewrite lookup_insert_eq|] ].
Qed.

Lemma reachable_paired fs :
  reachable UPLOAD_DIR secure_filename fs → paired fs.
Proof.
  induction 1 as [|env request fs _ IH|env request uploaded fs _ IH _].
  - apply paired_empty.
  - by apply paired_upload.
  - rewrite ics_path_app. by apply paired_insert_ics.
Qed.

(** C2: in every state that uploads can produce, the states between
    the two writes of an upload included, an id whose record can be
    read has an artifact that can be read.  The payload is written
    first: an upload stopped before the metadata write leaves the
    payload alone; and an upload that returns an id has written both,
    each readable under that id. *)
Theorem record_implies_artifact :
  (∀ fs file_id o,
     reachable UPLOAD_DIR secure_filename fs →
     (record file_id fs).1 = inr (Jsonify o 200) →
     ∃ f, (artifact file_id fs).1 = inr (SendFile f (str "text/calendar")))
  ∧ (∀ env request uploaded fs msg,
       accepted request uploaded →
       save_io env = IoOk → dump_io env = IoFails msg None →
       (upload env request fs).2
       = <[ics (uuid4_hex env) := Bytes (stream uploaded)]> fs)
  ∧ (∀ env request uploaded fs file_id,
       accepted request uploaded →
       response_id (upload env request fs).1 = Some file_id →
       (artifact file_id (upload env request fs).2).1
       = inr (SendFile (Bytes (stream uploaded)) (str "text/calendar"))
       ∧ (record file_id (upload env request fs).2).1
         = inr (Jsonify (meta_of secure_filename env request uploaded) 200)).
Proof.
  split; [|split].
  - intros fs file_id o Hreach Hrec.
    rewrite get_meta_spec in Hrec. rewrite get_ics_spec. cbn [fst] in *.
    assert (is_Some (fs !! json file_id)) as Hjson.
    { destruct (fs !! json file_id); [eauto | discriminate Hrec]. }
    rewrite json_path_app in Hjson. apply (reachable_paired _ Hreach) in Hjson.
    rewrite <- ics_path_app in Hjson. destruct Hjson as [f ->]. eauto.
  - intros env request uploaded fs msg Hacc Hs Hd.
    by rewrite (upload_accepted _ _ _ _ Hacc), Hs, Hd.
  - intros env request uploaded fs file_id Hacc Hid. split.
    + destruct (response_id_upload _ _ _ _ Hid) as (-> & Hs & Hd & _).
      rewrite get_ics_spec, (upload_accepted _ _ _ _ Hacc), Hs, Hd. cbn [fst snd].
      by rewrite lookup_ics_insert_json, lookup_insert_eq.
    + destruct (response_id_upload _ _ _ _ Hid) as (-> & Hs & Hd & _).
      rewrite get_meta_spec, (upload_accepted _ _ _ _ Hacc), Hs, Hd. cbn [fst snd].
      by rewrite lookup_insert_eq.
Qed.

(** *** Ids are not checked for collisions *)

Lemma not_found_artifact file_id fs :
  NotFound (artifact file_id fs) ↔ fs !! ics file_id = None.
Proof.
  unfold NotFound. rewrite get_ics_spec. cbn [fst].
  destruct (fs !! ics file_id); split; done.
Qed.

Lemma not_found_record file_id fs :
  NotFound (record file_id fs) ↔ fs !! json file_id = None.
Proof.
  unfold NotFound. rewrite get_meta_spec. cbn [fst].
  destruct (fs !! json file_id) as [[b|o|]|]; [destruct (json_loads b)|..];
    split; done.
Qed.

(** C3, as the code has it: an upload does not look whether the drawn
    id is in use and draws no second one.  When the drawn id names no
    stored artifact and no stored record, the upload leaves every
    artifact and every record that exists as it is; and two accepted
    uploads whose drawn ids differ return two distinct ids, each
    readable afterwards with its own bytes. *)
Theorem fresh_id_no_overwrite :
  (∀ env request fs file_id,
     NotFound (artifact (uuid4_hex env) fs) →
     NotFound (record (uuid4_hex env) fs) →
     (¬ NotFound (artifact file_id fs) →
      (artifact file_id (upload env request fs).2).1 = (artifact file_id fs).1)
     ∧ (¬ NotFound (record file_id fs) →
        (record file_id (upload env request fs).2).1 = (record file_id fs).1))
  ∧ (∀ env1 env2 request1 request2 uploaded1 uploaded2 fs id1 id2,
       accepted request1 uploaded1 → accepted request2 uploaded2 →
       uuid4_hex env1 ≠ uuid4_hex env2 →
       response_id (upload env1 request1 fs).1 = Some id1 →
       response_id (upload env2 request2 (upload env1 request1 fs).2).1 = Some id2 →
       id1 ≠ id2
       ∧ (artifact id1 (upload env2 request2 (upload env1 request1 fs).2).2).1
         = inr (SendFile (Bytes (stream uploaded1)) (str "text/calendar"))
       ∧ (artifact id2 (upload env2 request2 (upload env1 request1 fs).2).2).1
         = inr (SendFile (Bytes (stream uploaded2)) (str "text/calendar"))).
Proof.
  split.
  - intros env request fs file_id Hfa Hfr.
    apply not_found_artifact in Hfa. apply not_found_record in Hfr.
    split; intros Hex.
    + rewrite not_found_artifact in Hex. rewrite !get_ics_spec. cbn [fst].
      rewrite upload_other_paths; [done|congruence|].
      apply ics_json_path_ne.
    + rewrite not_found_record in Hex. rewrite !get_meta_spec. cbn [fst].
      rewrite upload_other_paths; [done| |congruence].
      apply not_eq_sym, ics_json_path_ne.
  - intros env1 env2 request1 request2 uploaded1 uploaded2 fs id1 id2
      Hacc1 Hacc2 Hne Hid1 Hid2.
    destruct (response_id_upload _ _ _ _ Hid1) as (-> & Hs1 & Hd1 & _).
    destruct (response_id_upload _ _ _ _ Hid2) as (-> & Hs2 & Hd2 & _).
    split; [done|]. rewrite !get_ics_spec. cbn [fst].
    rewrite (upload_accepted _ _ _ _ Hacc2), Hs2, Hd2. cbn [snd].
    rewrite !lookup_ics_insert_json. split.
    + rewrite lookup_insert_ne.
      2:{ intros H. apply ics_path_inj in H; auto using uuid4_hex_startswith. }
      rewrite (upload_accepted _ _ _ _ Hacc1), Hs1, Hd1. cbn [snd].
      by rewrite lookup_ics_insert_json, lookup_insert_eq.
    + by rewrite lookup_insert_eq.
Qed.

(** *** Lookups of unknown ids *)

Lemma passes_checks_accepted request :
  passes_checks request = true ↔ ∃ uploaded, accepted request uploaded.
Proof.
  unfold passes_checks, accepted. split.
  - intros H. apply andb_true_iff in H as [Hlen H].
    apply bool_decide_eq_true in Hlen.
    destruct (files_file request) as [uploaded|]; [|done].
    apply andb_true_iff in H as [Hname Hext].
    apply negb_true_iff, bool_decide_eq_false in Hname. by exists uploaded.
  - intros (uploaded & Hlen & -> & Hname & Hext).
    rewrite bool_decide_eq_true_2, bool_decide_eq_false_2, Hext by done. done.
Qed.

Lemma known_mono ids ids' fs :
  ids ⊆ ids' → known UPLOAD_DIR ids fs → known UPLOAD_DIR ids' fs.
Proof.
  intros Hsub Hk p Hp. destruct (Hk p Hp) as (i & Hi & Hsep & Hpath).
  exists i. split; [by apply Hsub | done].
Qed.

Lemma known_insert ids fs i p f :
  i ∈ ids → startswith i sep = false → p = ics i ∨ p = json i →
  known UPLOAD_DIR ids fs → known UPLOAD_DIR ids (<[p := f]> fs).
Proof.
  intros Hi Hsep Hp Hk q. rewrite lookup_insert. case_decide as Heq.
  - subst q. intros _. by exists i.
  - apply Hk.
Qed.

Lemma known_upload ids env request fs :
  known UPLOAD_DIR ids fs →
  known UPLOAD_DIR (ids ++ generated_ids [(env, request)]) (upload env request fs).2.
Proof.
  intros Hk. unfold generated_ids. cbn [omap list_omap fst snd].
  destruct (passes_checks request) eqn:Hpass.
  2:{ destruct (upload_refused env request fs) as [-> _].
      - intros uploaded Hacc.
        assert (passes_checks request = true) by (apply passes_checks_accepted; eauto).
        congruence.
      - eapply known_mono; [|done]. set_solver. }
  apply passes_checks_accepted in Hpass as [uploaded Hacc].
  rewrite (upload_accepted _ _ _ _ Hacc).
  assert (known UPLOAD_DIR (ids ++ [uuid4_hex env]) fs) as Hk'
    by (eapply known_mono; [|done]; set_solver).
  assert (uuid4_hex env ∈ ids ++ [uuid4_hex env]) as Hin by set_solver.
  pose proof (uuid4_hex_startswith env) as Hsep.
  destruct (save_io env) as [|msg [n|]];
    [destruct (dump_io env) as [|msg [n|]]|..]; cbn [snd];
    eauto 10 using known_insert.
Qed.

Lemma generated_ids_cons c calls :
  generated_ids (c :: calls) = generated_ids [c] ++ generated_ids calls.
Proof.
  unfold generated_ids. cbn [omap list_omap].
  by destruct (passes_checks c.2).
Qed.

Lemma run_known calls : ∀ ids fs,
  known UPLOAD_DIR ids fs →
  known UPLOAD_DIR (ids ++ generated_ids calls)
    (run UPLOAD_DIR secure_filename calls fs).2.
Proof.
  induction calls as [|[env request] calls IH]; intros ids fs Hk.
  - cbn. by rewrite app_nil_r.
  - cbn [run fst snd].
    apply (known_upload _ env request) in Hk. apply IH in Hk.
    rewrite <- app_assoc in Hk. by rewrite generated_ids_cons.
Qed.

(** When every write goes through, the ids handed out are the ids drawn. *)
Lemma run_returned_ids calls : ∀ fs,
  Forall io_ok calls →
  omap response_id (run UPLOAD_DIR secure_filename calls fs).1 = generated_ids calls.
Proof.
  induction calls as [|[env request] calls IH]; intros fs Hok; [done|].
  apply Forall_cons in Hok as [[Hs Hd] Hok]. cbn [fst snd] in Hs, Hd.
  cbn [run fst snd]. unfold generated_ids. cbn [omap list_omap fst snd].
  fold (generated_ids calls).
  rewrite <- (IH (upload env request fs).2 Hok).
  destruct (passes_checks request) eqn:Hpass.
  - apply passes_checks_accepted in Hpass as [uploaded Hacc].
    rewrite (upload_accepted _ _ _ _ Hacc), Hs, Hd. cbn [fst snd].
    by rewrite response_id_success.
  - destruct (upload_refused env request fs) as [_ ->]; [|done].
    intros uploaded Hacc.
    assert (passes_checks request = true) by (apply passes_checks_accepted; eauto).
    congruence.
Qed.

Lemma known_not_found ids fs file_id :
  known UPLOAD_DIR ids fs → startswith file_id sep = false → file_id ∉ ids →
  NotFound (artifact file_id fs) ∧ NotFound (record file_id fs).
Proof.
  intros Hk Hsep Hnot. rewrite not_found_artifact, not_found_record.
  split; apply eq_None_not_Some; intros Hp;
    destruct (Hk _ Hp) as (i & Hi & Hisep & [Heq|Heq]).
  - apply ics_path_inj in Heq; [congruence|done..].
  - by apply ics_json_path_ne in Heq.
  - symmetry in Heq. by apply ics_json_path_ne in Heq.
  - apply json_path_inj in Heq; [congruence|done..].
Qed.

(** C5, as the code has it: after any run of uploads from an empty
    directory, an id (a URL segment, so without a leading slash) that
    the store never drew for an upload that passed the checks is not
    found, as artifact and as record; when every write went through,
    these are the ids that no successful upload returned.  (The id of
    an upload whose write failed was returned to no one and may still
    name a stored payload.) *)
Theorem unknown_id_not_found calls file_id :
  startswith file_id sep = false →
  (file_id ∉ generated_ids calls →
   NotFound (artifact file_id (run UPLOAD_DIR secure_filename calls ∅).2)
   ∧ NotFound (record file_id (run UPLOAD_DIR secure_filename calls ∅).2))
  ∧ (Forall io_ok calls →
     file_id ∉ omap response_id (run UPLOAD_DIR secure_filename calls ∅).1 →
     NotFound (artifact file_id (run UPLOAD_DIR secure_filename calls ∅).2)
     ∧ NotFound (record file_id (run UPLOAD_DIR secure_filename calls ∅).2)).
Proof.
  intros Hsep.
  assert (known UPLOAD_DIR ([] ++ generated_ids calls)
            (run UPLOAD_DIR secure_filename calls ∅).2) as Hk.
  { apply run_known. intros p [f Hf]. by rewrite lookup_empty in Hf. }
  split.
  - intros Hnot. by eapply known_not_found.
  - intros Hok Hnot. rewrite run_returned_ids in Hnot by done.
    by eapply known_not_found.
Qed.

(** *** The display name *)

Lemma display_name_spec request :
  match form_name request with
  | None => display_name request = str "Unnamed Student"
  | Some supplied =>
      (blank supplied → display_name request = str "Unnamed Student")
      ∧ (¬ blank supplied →
         display_name request = strip supplied
         ∧ display_name request ≠ []
         ∧ trimmed supplied (display_name request))
  end.
Proof.
  unfold display_name. destruct (form_name request) as [supplied|]; cbn [default].
  - split.
    + intros Hb. apply strip_nil in Hb. by rewrite bool_decide_eq_true_2.
    + intros Hb. rewrite <- strip_nil in Hb.
      rewrite bool_decide_eq_false_2 by done. auto using strip_trimmed.
  - done.
Qed.

Lemma display_name_placeholder request :
  display_name request = str "Unnamed Student"
  ↔ match form_name request with
    | None => True
    | Some supplied => blank supplied ∨ strip supplied = str "Unnamed Student"
    end.
Proof.
  pose proof (display_name_spec request) as H.
  destruct (form_name request) as [supplied|]; [|done].
  destruct H as [Hb Hn].
  destruct (decide (strip supplied = [])) as [He|He].
  - apply strip_nil in He. split; [by left | by intros _; apply Hb].
  - rewrite <- strip_nil in Hb, Hn. destruct (Hn He) as (Hd & _).
    rewrite Hd. split; [by right|]. intros [Hbl|Hp]; [|done].
    by apply strip_nil in Hbl.
Qed.

(** C7, as the code has it: for an upload that returned an id, the
    record read back under that id carries as its name the supplied
    name without the white space around it; when no name was supplied,
    or one of white space only (the empty one too), it carries the
    placeholder.  The name read back is the placeholder exactly when no
    name was supplied, or one of white space only, or one that is the
    text of the placeholder once the white space around it is gone. *)
Theorem display_name_trimmed env request uploaded fs file_id :
  accepted request uploaded →
  response_id (upload env request fs).1 = Some file_id →
  ∃ meta shown,
    (record file_id (upload env request fs).2).1 = inr (Jsonify meta 200)
    ∧ dict_get (str "name") meta = Some (JStr shown)
    ∧ match form_name request with
      | None => shown = str "Unnamed Student"
      | Some supplied =>
          (blank supplied → shown = str "Unnamed Student")
          ∧ (¬ blank supplied →
             shown = strip supplied ∧ shown ≠ [] ∧ trimmed supplied shown)
      end
    ∧ (shown = str "Unnamed Student"
       ↔ match form_name request with
         | None => True
         | Some supplied =>
             blank supplied ∨ strip supplied = str "Unnamed Student"
         end).
Proof.
  intros Hacc Hid.
  destruct (response_id_upload _ _ _ _ Hid) as (-> & Hs & Hd & _).
  exists (meta_of secure_filename env request uploaded), (display_name request).
  split; [|split; [|split]].
  - rewrite get_meta_spec, (upload_accepted _ _ _ _ Hacc), Hs, Hd. cbn [fst snd].
    by rewrite lookup_insert_eq.
  - reflexivity.
  - apply display_name_spec.
  - apply display_name_placeholder.
Qed.

(** *** The size ceiling *)



(** *** The extension check *)

Lemma lower_char_inv x v :
  lower_char x = v → x = v ∨ ((x + 32)%N = v ∧ (65 ≤ x ≤ 90)%N).
Proof.
  unfold lower_char.
  destruct (N.leb_spec 65 x), (N.leb_spec x 90); cbn [andb]; intros <-; auto.
Qed.


Lemma splitext_stem_ext stem ext :
  has_base_name stem → single_extension ext → splitext (stem ++ ext) = (stem, ext).
Proof.
  intros (dir & c & rest & -> & Hc & Hcs & Hrest) (e & -> & Hse & He).
  by apply splitext_app.
Qed.

Lemma single_extension_txt : single_extension (str ".txt").
Proof.
  exists [116; 120; 116]%N. split; [reflexivity|].
  rewrite !not_elem_of_cons. repeat split; try done; apply not_elem_of_nil.
Qed.

Lemma single_extension_ics ext : lower ext = str ".ics" → single_extension ext.
Proof.
  rewrite ext_ics_eq. unfold lower. intros H.
  destruct ext as [|c0 [|c1 [|c2 [|c3 [|? ?]]]]]; try discriminate H.
  cbn [fmap list_fmap] in H. injection H as H0 H1 H2 H3.
  apply lower_char_inv in H0, H1, H2, H3.
  exists [c1; c2; c3]. unfold sep, extsep.
  split; [f_equal; lia|].
  rewrite !not_elem_of_cons. repeat split; try lia; apply not_elem_of_nil.
Qed.

(** C6: the check compares the lowercased last extension of the
    filename with ".ics".  An upload whose extension is another one is
    refused with status 400 before anything is stored; for a name with
    a base name and a single extension the check sees exactly that
    extension, whatever the case of its letters: "x.txt" is refused,
    "x.ics" and "x.ICS" pass, and an upload with such a name is stored
    and returns its id. *)
Theorem extension_check :
  (∀ env request uploaded fs,
     content_length request ≤ MAX_BYTES → files_file request = Some uploaded →
     filename uploaded ≠ [] →
     lower (splitext (filename uploaded)).2 ≠ str ".ics" →
     upload env request fs
     = (inr (Jsonify (error_body (str "Only .ics files allowed")) 400), fs))
  ∧ (∀ stem ext,
       has_base_name stem → single_extension ext →
       allowed_filename (stem ++ ext) = bool_decide (lower ext = str ".ics"))
  ∧ (∀ stem,
       has_base_name stem →
       allowed_filename (stem ++ str ".txt") = false
       ∧ allowed_filename (stem ++ str ".ics") = true
       ∧ allowed_filename (stem ++ str ".ICS") = true)
  ∧ (∀ env request uploaded fs stem ext,
       content_length request ≤ MAX_BYTES → files_file request = Some uploaded →
       filename uploaded = stem ++ ext → has_base_name stem →
       lower ext = str ".ics" →
       save_io env = IoOk → dump_io env = IoOk →
       response_id (upload env request fs).1 = Some (uuid4_hex env)).
Proof.
  assert (∀ stem ext, has_base_name stem → single_extension ext →
    allowed_filename (stem ++ ext) = bool_decide (lower ext = str ".ics")) as Hext.
  { intros stem ext Hstem Hsingle.
    by rewrite allowed_filename_ext, splitext_stem_ext. }
  split; [|split; [|split]].
  - intros env request uploaded fs Hlen Hfile Hname Hother.
    apply (upload_not_allowed _ _ uploaded); [done..|].
    rewrite allowed_filename_ext. by apply bool_decide_eq_false_2.
  - exact Hext.
  - intros stem Hstem. repeat split.
    + by rewrite (Hext _ _ Hstem single_extension_txt).
    + by rewrite (Hext _ (str ".ics") Hstem (single_extension_ics (str ".ics") eq_refl)).
    + by rewrite (Hext _ (str ".ICS") Hstem (single_extension_ics (str ".ICS") eq_refl)).
  - intros env request uploaded fs stem ext Hlen Hfile Hname Hstem Hlow Hs Hd.
    assert (accepted request uploaded) as Hacc.
    { repeat split; try done.
      - rewrite Hname. destruct Hstem as (dir & c & rest & -> & _).
        by destruct dir.
      - rewrite Hname, (Hext _ _ Hstem (single_extension_ics _ Hlow)).
        by apply bool_decide_eq_true_2. }
    rewrite (upload_accepted _ _ _ _ Hacc), Hs, Hd. apply response_id_success.
Qed.

(** *** A bare extension is no extension *)

(** A name that lowercases to ".ics" is one of its eight spellings. *)
Lemma lower_ics_spellings f :
  lower f = str ".ics" →
  ∃ c1 c2 c3, f = [46; c1; c2; c3]%N
    ∧ (c1 = 105 ∨ c1 = 73)%N ∧ (c2 = 99 ∨ c2 = 67)%N ∧ (c3 = 115 ∨ c3 = 83)%N.
Proof.
  rewrite ext_ics_eq. unfold lower. intros H.
  destruct f as [|c0 [|c1 [|c2 [|c3 [|? ?]]]]]; try discriminate H.
  cbn [fmap list_fmap] in H. injection H as H0 H1 H2 H3.
  apply lower_char_inv in H0, H1, H2, H3.
  exists c1, c2, c3. repeat split; [f_equal|..]; lia.
Qed.

(** C10: an upload whose filename is nothing but the allowed extension,
    in any spelling of its letters, has an empty extension for
    [os.path.splitext], which takes the leading dot as the start of the
    base name; the upload is refused with status 400, and nothing is
    stored. *)
Theorem bare_extension_rejected env request uploaded fs :
  content_length request ≤ MAX_BYTES →
  files_file request = Some uploaded →
  lower (filename uploaded) = str ".ics" →
  splitext (filename uploaded) = (filename uploaded, [])
  ∧ upload env request fs
    = (inr (Jsonify (error_body (str "Only .ics files allowed")) 400), fs).
Proof.
  intros Hlen Hfile Hlow.
  destruct (lower_ics_spellings _ Hlow) as (c1 & c2 & c3 & Hf & H1 & H2 & H3).
  assert (splitext (filename uploaded) = (filename uploaded, [])) as Hsplit.
  { rewrite Hf.
    destruct H1 as [-> | ->], H2 as [-> | ->], H3 as [-> | ->];
      vm_compute; reflexivity. }
  split; [done|].
  apply (upload_not_allowed _ _ uploaded); [done..| |].
  - by rewrite Hf.
  - rewrite allowed_filename_ext, Hsplit, ext_ics_eq. by apply bool_decide_eq_false_2.
Qed.

End Facts.

(** ** The statements on sample calls *)

Lemma id_one_drawn : uuid4_hex draw_one = id_one.
Proof. reflexivity. Qed.


Lemma id_two_drawn : uuid4_hex draw_two = id_two.
Proof. reflexivity. Qed.

Lemma alice_accepted : accepted alice_request alice_upload.
Proof. repeat split; by vm_compute. Qed.

Lemma bob_accepted : accepted bob_request bob_upload.
Proof. repeat split; by vm_compute. Qed.

Lemma traversal_accepted : accepted traversal_request traversal_upload.
Proof. repeat split; by vm_compute. Qed.

(** C1 on the upload of Alice. *)
Lemma roundtrip_identity_witness :
  get_ics tmp_uploads (uuid4_hex draw_one) after_alice
  = (inr (SendFile (Bytes calendar_a) (str "text/calendar")), after_alice).
Proof.
  apply (proj2 (roundtrip_identity tmp_uploads secure_filename_ascii
                  draw_one alice_request alice_upload ∅ alice_accepted)).
  apply (proj1 (roundtrip_identity tmp_uploads secure_filename_ascii
                  draw_one alice_request alice_upload ∅ alice_accepted));
    reflexivity.
Defined.

(** C2 on the directory the upload of Alice leaves. *)
Lemma record_implies_artifact_witness :
  ∃ f, (get_ics tmp_uploads id_one after_alice).1
       = inr (SendFile f (str "text/calendar")).
Proof.
  apply (proj1 (record_implies_artifact tmp_uploads secure_filename_ascii no_json)
           after_alice id_one
           (meta_of secure_filename_ascii draw_one alice_request alice_upload)).
  - apply reach_put, reach_empty.
  - vm_compute. reflexivity.
Defined.

(** C3 as claimed fails: the same id drawn twice makes the second upload
    return the id of the first and replace its bytes. *)
Lemma colliding_id_overwrites :
  response_id
    (upload_schedule tmp_uploads secure_filename_ascii draw_one alice_request ∅).1
  = Some id_one
  ∧ response_id
      (upload_schedule tmp_uploads secure_filename_ascii draw_one bob_request
         after_alice).1
    = Some id_one
  ∧ (get_ics tmp_uploads id_one after_alice).1
    = inr (SendFile (Bytes calendar_a) (str "text/calendar"))
  ∧ (get_ics tmp_uploads id_one after_alice_then_bob_same_draw).1
    = inr (SendFile (Bytes calendar_b) (str "text/calendar"))
  ∧ calendar_a ≠ calendar_b.
Proof. repeat split; by vm_compute. Qed.

(** C3, as the code has it, on two uploads with two different draws. *)
Lemma fresh_id_no_overwrite_witness :
  id_one ≠ id_two
  ∧ (get_ics tmp_uploads id_one
       (upload_schedule tmp_uploads secure_filename_ascii draw_two bob_request
          after_alice).2).1
    = inr (SendFile (Bytes calendar_a) (str "text/calendar"))
  ∧ (get_ics tmp_uploads id_two
       (upload_schedule tmp_uploads secure_filename_ascii draw_two bob_request
          after_alice).2).1
    = inr (SendFile (Bytes calendar_b) (str "text/calendar")).
Proof.
  apply (proj2 (fresh_id_no_overwrite tmp_uploads secure_filename_ascii no_json)
           draw_one draw_two alice_request bob_request alice_upload bob_upload ∅
           id_one id_two alice_accepted bob_accepted).
  - by vm_compute.
  - reflexivity.
  - reflexivity.
Defined.



(** C5 as claimed fails: the metadata write of an upload fails, its id
    is returned to no one, and the payload is served under that id. *)
Lemma orphan_payload_is_served :
  omap response_id
    (run tmp_uploads secure_filename_ascii [(draw_one_dump_fails, alice_request)] ∅).1
  = []
  ∧ (get_ics tmp_uploads id_one
       (run tmp_uploads secure_filename_ascii
          [(draw_one_dump_fails, alice_request)] ∅).2).1
    = inr (SendFile (Bytes calendar_a) (str "text/calendar")).
Proof. split; by vm_compute. Qed.

(** C5, as the code has it: after the upload of Alice the id of the
    second draw is unknown. *)
Lemma unknown_id_not_found_witness :
  NotFound (get_ics tmp_uploads id_two
              (run tmp_uploads secure_filename_ascii [(draw_one, alice_request)] ∅).2)
  ∧ NotFound (get_meta tmp_uploads no_json id_two
                (run tmp_uploads secure_filename_ascii [(draw_one, alice_request)] ∅).2).
Proof.
  apply (proj1 (unknown_id_not_found tmp_uploads secure_filename_ascii no_json
                  [(draw_one, alice_request)] id_two eq_refl)).
  apply (bool_decide_unpack _). by vm_compute.
Defined.

Lemma alice_base_name : has_base_name (str "alice").
Proof.
  exists [], 97%N, (str "lice"). repeat split; try done.
  apply (bool_decide_unpack _). by vm_compute.
Qed.

(** C6 on "notes.txt" and on "alice.ics". *)
Lemma extension_check_witness :
  upload_schedule tmp_uploads secure_filename_ascii draw_one notes_request ∅
  = (inr (Jsonify (error_body (str "Only .ics files allowed")) 400), ∅)
  ∧ response_id
      (upload_schedule tmp_uploads secure_filename_ascii draw_one alice_request ∅).1
    = Some (uuid4_hex draw_one).
Proof.
  split.
  - apply (proj1 (extension_check tmp_uploads secure_filename_ascii)
             draw_one notes_request
             {| filename := str "notes.txt"; stream := calendar_a |} ∅).
    + by vm_compute.
    + reflexivity.
    + by vm_compute.
    + by vm_compute.
  - apply (proj2 (proj2 (proj2 (extension_check tmp_uploads secure_filename_ascii)))
             draw_one alice_request alice_upload ∅ (str "alice") (str ".ics")).
    + by vm_compute.
    + reflexivity.
    + reflexivity.
    + exact alice_base_name.
    + reflexivity.
    + reflexivity.
    + reflexivity.
Defined.

(** C7 as claimed fails: a name that is the text of the placeholder is
    not blank, and the record carries the placeholder. *)
Lemma placeholder_text_as_name :
  form_name placeholder_request = Some (str "Unnamed Student")
  ∧ ¬ blank (str "Unnamed Student")
  ∧ accepted placeholder_request alice_upload
  ∧ (get_meta tmp_uploads no_json id_one
       (upload_schedule tmp_uploads secure_filename_ascii draw_one
          placeholder_request ∅).2).1
    = inr (Jsonify (meta_of secure_filename_ascii draw_one placeholder_request
                      alice_upload) 200)
  ∧ dict_get (str "name")
      (meta_of secure_filename_ascii draw_one placeholder_request alice_upload)
    = Some (JStr (str "Unnamed Student")).
Proof.
  split; [reflexivity|]. split.
  { intros H. apply Forall_cons_1 in H as [H _]. by vm_compute in H. }
  split; [repeat split; by vm_compute|].
  split; by vm_compute.
Qed.

(** C7, as the code has it, on the upload of Alice, whose name comes
    with spaces around it. *)
Lemma display_name_trimmed_witness :
  ∃ meta shown,
    (get_meta tmp_uploads no_json id_one after_alice).1 = inr (Jsonify meta 200)
    ∧ dict_get (str "name") meta = Some (JStr shown)
    ∧ ((blank (str "  Alice ") → shown = str "Unnamed Student")
       ∧ (¬ blank (str "  Alice ") →
          shown = strip (str "  Alice ") ∧ shown ≠ []
          ∧ trimmed (str "  Alice ") shown))
    ∧ (shown = str "Unnamed Student"
       ↔ blank (str "  Alice ")
         ∨ strip (str "  Alice ") = str "Unnamed Student").
Proof.
  exact (display_name_trimmed tmp_uploads secure_filename_ascii no_json
           draw_one alice_request alice_upload ∅ id_one alice_accepted eq_refl).
Defined.

(** C8 on the bytes of Alice under "alice.ics" and under
    "../../etc/passwd.ics". *)
Lemma artifact_location_ignores_filename_witness :
  response_id
    (upload_schedule tmp_uploads secure_filename_ascii draw_one alice_request ∅).1
  = response_id
      (upload_schedule tmp_uploads secure_filename_ascii draw_one
         traversal_request ∅).1
  ∧ (get_ics tmp_uploads id_one
       (upload_schedule tmp_uploads secure_filename_ascii draw_one alice_request ∅).2).1
    = (get_ics tmp_uploads id_one
         (upload_schedule tmp_uploads secure_filename_ascii draw_one
            traversal_request ∅).2).1.
Proof.
  pose proof (artifact_location_ignores_filename tmp_uploads secure_filename_ascii
                draw_one ∅ alice_request alice_upload traversal_request
                traversal_upload alice_accepted traversal_accepted eq_refl)
    as (Hid & Hget & _).
  split; [exact Hid | exact (Hget id_one)].
Defined.

(** C9 on the upload of Alice: when the metadata write fails the
    exception leaves the view, with the payload already stored; when
    the payload write fails the view answers with status 500 and the
    reason. *)
Theorem metadata_write_failure_escapes :
  upload_schedule tmp_uploads secure_filename_ascii draw_one_dump_fails
    alice_request ∅
  = (inl (OSError disk_full),
     <[ics_path tmp_uploads id_one := Bytes calendar_a]> ∅)
  ∧ upload_schedule tmp_uploads secure_filename_ascii draw_one_save_fails
      alice_request ∅
    = (inr (Jsonify (error_body (str "Failed to save: " ++ disk_full)) 500), ∅).
Proof.
  split; rewrite (upload_accepted _ _ _ _ _ _ alice_accepted); reflexivity.
Qed.

(** C10 on the bare name ".ics". *)
Lemma bare_extension_rejected_witness :
  splitext (filename bare_upload) = (filename bare_upload, [])
  ∧ upload_schedule tmp_uploads secure_filename_ascii draw_one bare_request ∅
    = (inr (Jsonify (error_body (str "Only .ics files allowed")) 400), ∅).
Proof.
  apply (bare_extension_rejected tmp_uploads secure_filename_ascii draw_one
           bare_request bare_upload ∅).
  - by vm_compute.
  - reflexivity.
  - reflexivity.
Defined.

(** * Further properties of the views *)

Section MoreFacts.

Variable UPLOAD_DIR : pystr.
Variable secure_filename : pystr → pystr.
Variable json_loads : list byte → option jobj.

Local Abbreviation upload := (upload_schedule UPLOAD_DIR secure_filename).
Local Abbreviation artifact := (get_ics UPLOAD_DIR).
Local Abbreviation record := (get_meta UPLOAD_DIR json_loads).
Local Abbreviation ics := (ics_path UPLOAD_DIR).
Local Abbreviation json := (json_path UPLOAD_DIR).
Local Abbreviation runs := (run UPLOAD_DIR secure_filename).

(** *** Refused uploads *)

(** X1: an upload that some check refuses writes nothing and hands out
    no id, and its answer is fixed by the first check that fails, in
    the order of the view: body over the ceiling (413), no file, empty
    filename, extension not allowed (400 each, with its own reason). *)
Theorem refused_upload_changes_nothing env request fs :
  (∀ uploaded, ¬ accepted request uploaded) →
  (upload env request fs).2 = fs
  ∧ response_id (upload env request fs).1 = None
  ∧ (upload env request fs).1
    = if bool_decide (MAX_BYTES < content_length request)
      then inl (HTTPException 413)
      else match files_file request with
           | None => inr (Jsonify (error_body (str "No file provided")) 400)
           | Some uploaded =>
               if bool_decide (filename uploaded = [])
               then inr (Jsonify (error_body (str "No filename")) 400)
               else inr (Jsonify (error_body (str "Only .ics files allowed")) 400)
           end.
Proof.
  intros Hno.
  destruct (upload_refused UPLOAD_DIR secure_filename env request fs Hno) as [Hfs Hid].
  split; [done|]. split; [done|].
  case_bool_decide as Hlen.
  { by rewrite upload_too_large. }
  assert (content_length request ≤ MAX_BYTES) as Hle by lia.
  destruct (files_file request) as [uploaded|] eqn:Hfile.
  2:{ by rewrite upload_no_file. }
  case_bool_decide as Hname.
  { by rewrite (upload_no_filename _ _ _ _ uploaded). }
  destruct (allowed_filename (filename uploaded)) eqn:Hext.
  { destruct (Hno uploaded). by repeat split. }
  by rewrite (upload_not_allowed _ _ _ _ uploaded).
Qed.

(** *** A payload write that fails *)

(** X2: when the payload write of an accepted upload fails, the view
    answers with status 500 and the reason of the failure, hands out no
    id, and never starts the metadata write: no path but the payload
    path can have changed, and nothing at all when the file could not
    be opened. *)
Theorem payload_write_failure_reported env request uploaded fs msg written :
  accepted request uploaded →
  save_io env = IoFails msg written →
  (upload env request fs).1
  = inr (Jsonify (error_body (str "Failed to save: " ++ msg)) 500)
  ∧ response_id (upload env request fs).1 = None
  ∧ (∀ p, p ≠ ics (uuid4_hex env) → (upload env request fs).2 !! p = fs !! p)
  ∧ (written = None → (upload env request fs).2 = fs).
Proof.
  intros Hacc Hs. rewrite (upload_accepted _ _ _ _ _ _ Hacc), Hs.
  destruct written as [n|]; cbn [fst snd].
  - split; [done|]. split; [apply response_id_error|]. split; [|done].
    intros p Hp. by rewrite lookup_insert_ne.
  - split; [done|]. split; [apply response_id_error|]. done.
Qed.

(** *** The share link *)

Lemma rstrip_char_split c s :
  ∃ k, s = rstrip_char c s ++ replicate k c ∧ last (rstrip_char c s) ≠ Some c.
Proof.
  unfold rstrip_char.
  destruct (rstrip_by_split (λ x, bool_decide (x = c)) s) as (r & Hs & Hr & Hlast).
  exists (length r). split.
  - rewrite Hs at 1. f_equal. clear Hs.
    induction Hr as [|x r Hx _ IH]; [done|].
    apply bool_decide_eq_true in Hx as ->. cbn. by f_equal.
  - intros Hc. apply Hlast in Hc. by apply bool_decide_eq_false in Hc.
Qed.

(** X3: the link an upload returns is the URL root of the request
    without its trailing slashes, then "/s/", then the id: whatever the
    number of slashes the root ends with, the link has exactly one
    before "s". *)
Theorem share_link_shape env request uploaded fs :
  accepted request uploaded → save_io env = IoOk → dump_io env = IoOk →
  ∃ body base k,
    (upload env request fs).1 = inr (Jsonify body 200)
    ∧ url_root request = base ++ replicate k sep
    ∧ last base ≠ Some sep
    ∧ dict_get (str "link") body
      = Some (JStr (base ++ str "/s/" ++ uuid4_hex env)).
Proof.
  intros Hacc Hs Hd.
  destruct (rstrip_char_split sep (url_root request)) as (k & Hroot & Hlast).
  exists (success_body env request), (rstrip_char sep (url_root request)), k.
  rewrite (upload_accepted _ _ _ _ _ _ Hacc), Hs, Hd. done.
Qed.

(** *** Record and response *)

(** X4: after an upload that returned an id, the record read back under
    that id has the three keys "id", "name" and "orig_name": the id is
    the one returned, the name is the one the upload answered with, and
    the original name is what [secure_filename] made of the filename. *)
Theorem record_matches_response env request uploaded fs file_id :
  accepted request uploaded →
  response_id (upload env request fs).1 = Some file_id →
  ∃ body meta,
    (upload env request fs).1 = inr (Jsonify body 200)
    ∧ (record file_id (upload env request fs).2).1 = inr (Jsonify meta 200)
    ∧ meta.*1 = [str "id"; str "name"; str "orig_name"]
    ∧ dict_get (str "id") meta = Some (JStr file_id)
    ∧ dict_get (str "name") meta = dict_get (str "name") body
    ∧ dict_get (str "orig_name") meta
      = Some (JStr (secure_filename (filename uploaded))).
Proof.
  intros Hacc Hid.
  destruct (response_id_upload _ _ _ _ _ _ Hid) as (-> & Hs & Hd & _).
  exists (success_body env request), (meta_of secure_filename env request uploaded).
  rewrite get_meta_spec, (upload_accepted _ _ _ _ _ _ Hacc), Hs, Hd. cbn [fst snd].
  rewrite lookup_insert_eq. done.
Qed.

(** *** Stored files stay *)

Lemma upload_keeps_other_id env request fs file_id :
  startswith file_id sep = false →
  file_id ∉ generated_ids [(env, request)] →
  (upload env request fs).2 !! ics file_id = fs !! ics file_id
  ∧ (upload env request fs).2 !! json file_id = fs !! json file_id.
Proof.
  intros Hsep Hnot. unfold generated_ids in Hnot. cbn [omap list_omap snd fst] in Hnot.
  destruct (passes_checks request) eqn:Hpass.
  - apply not_elem_of_cons in Hnot as [Hne _].
    pose proof (uuid4_hex_startswith env) as Hhex.
    split; apply upload_other_paths.
    + intros H. apply ics_path_inj in H; done.
    + apply ics_json_path_ne.
    + apply not_eq_sym, ics_json_path_ne.
    + intros H. apply json_path_inj in H; done.
  - destruct (upload_refused UPLOAD_DIR secure_filename env request fs) as [-> _]; [|done].
    intros uploaded Hacc.
    assert (passes_checks request = true) by (apply passes_checks_accepted; eauto).
    congruence.
Qed.

Lemma run_keeps_other_id calls : ∀ fs file_id,
  startswith file_id sep = false →
  file_id ∉ generated_ids calls →
  (runs calls fs).2 !! ics file_id = fs !! ics file_id
  ∧ (runs calls fs).2 !! json file_id = fs !! json file_id.
Proof.
  induction calls as [|[env request] calls IH]; intros fs file_id Hsep Hnot; [done|].
  rewrite generated_ids_cons in Hnot. apply not_elem_of_app in Hnot as [Hhere Hlater].
  cbn [run fst snd].
  destruct (IH (upload env request fs).2 file_id Hsep Hlater) as [-> ->].
  by apply upload_keeps_other_id.
Qed.

(** X5: what is stored under an id is never changed by later uploads
    that draw other ids: after any run of uploads, whatever their
    requests and whatever their writes do, the artifact and the record
    of an id that none of them drew are answered as before. *)
Theorem later_uploads_keep_stored calls fs file_id :
  startswith file_id sep = false →
  file_id ∉ generated_ids calls →
  (artifact file_id (runs calls fs).2).1 = (artifact file_id fs).1
  ∧ (record file_id (runs calls fs).2).1 = (record file_id fs).1.
Proof.
  intros Hsep Hnot. rewrite !get_ics_spec, !get_meta_spec. cbn [fst].
  by destruct (run_keeps_other_id calls fs file_id Hsep Hnot) as [-> ->].
Qed.

Lemma upload_keeps_paths env request fs p :
  is_Some (fs !! p) → is_Some ((upload env request fs).2 !! p).
Proof.
  intros Hp.
  destruct (accepted_or_refused request) as [[uploaded Hacc]|Hno].
  2:{ by destruct (upload_refused UPLOAD_DIR secure_filename env request fs Hno)
        as [-> _]. }
  rewrite (upload_accepted _ _ _ _ _ _ Hacc).
  destruct (save_io env) as [|msg [n|]];
    [destruct (dump_io env) as [|msg [n|]]|..]; cbn [snd];
    rewrite ?lookup_insert; repeat case_decide; eauto.
Qed.

Lemma run_keeps_paths calls : ∀ fs p,
  is_Some (fs !! p) → is_Some ((runs calls fs).2 !! p).
Proof.
  induction calls as [|[env request] calls IH]; intros fs p Hp; [done|].
  cbn [run fst snd]. by apply IH, upload_keeps_paths.
Qed.

(** X6: no upload deletes a file: an id whose artifact is found is
    still found after any run of uploads, and so is an id whose record
    is found (a colliding draw can replace the content, never remove
    it). *)
Theorem uploads_never_delete calls fs file_id :
  (¬ NotFound (artifact file_id fs) →
   ¬ NotFound (artifact file_id (runs calls fs).2))
  ∧ (¬ NotFound (record file_id fs) →
     ¬ NotFound (record file_id (runs calls fs).2)).
Proof.
  rewrite !not_found_artifact, !not_found_record.
  split; intros Hp; apply not_eq_None_Some, (run_keeps_paths calls);
    by apply not_eq_None_Some.
Qed.

(** *** What the files of the directory hold *)

Lemma well_kept_empty : well_kept UPLOAD_DIR ∅.
Proof. intros p f Hf. by rewrite lookup_empty in Hf. Qed.

Lemma well_kept_insert_ics fs i b :
  well_kept UPLOAD_DIR fs → well_kept UPLOAD_DIR (<[ics i := Bytes b]> fs).
Proof.
  intros Hfs p f. rewrite lookup_insert. case_decide as Heq.
  - subst p. intros [= <-]. left. eauto.
  - apply Hfs.
Qed.

Lemma well_kept_insert_json fs i f :
  startswith i sep = false →
  f = JsonCut ∨ (∃ o, f = JsonText o ∧ dict_get (str "id") o = Some (JStr i)) →
  well_kept UPLOAD_DIR fs → well_kept UPLOAD_DIR (<[json i := f]> fs).
Proof.
  intros Hsep Hf Hfs p g. rewrite lookup_insert. case_decide as Heq.
  - subst p. intros [= <-]. right. eauto.
  - apply Hfs.
Qed.

Lemma well_kept_upload env request fs :
  well_kept UPLOAD_DIR fs → well_kept UPLOAD_DIR (upload env request fs).2.
Proof.
  intros Hfs.
  destruct (accepted_or_refused request) as [[uploaded Hacc]|Hno].
  2:{ by destruct (upload_refused UPLOAD_DIR secure_filename env request fs Hno)
        as [-> _]. }
  rewrite (upload_accepted _ _ _ _ _ _ Hacc).
  pose proof (uuid4_hex_startswith env) as Hsep.
  destruct (save_io env) as [|msg [n|]];
    [destruct (dump_io env) as [|msg [n|]]|..]; cbn [snd];
    repeat first
      [ assumption
      | apply well_kept_insert_ics
      | apply well_kept_insert_json; [done | |] ];
    [right; eexists; split; [done|reflexivity] | by left].
Qed.

Lemma reachable_well_kept fs :
  reachable UPLOAD_DIR secure_filename fs → well_kept UPLOAD_DIR fs.
Proof.
  induction 1 as [|env request fs _ IH|env request uploaded fs _ IH _].
  - apply well_kept_empty.
  - by apply well_kept_upload.
  - by apply well_kept_insert_ics.
Qed.

(** X7: in every state that uploads can produce, the artifact view
    only ever sends raw payload bytes (never a metadata file), and a
    record read under an id carries that very id in its "id" field. *)
Theorem stored_files_are_what_they_claim fs file_id :
  reachable UPLOAD_DIR secure_filename fs →
  (∀ f mimetype,
     (artifact file_id fs).1 = inr (SendFile f mimetype) → ∃ b, f = Bytes b)
  ∧ (∀ o status,
       startswith file_id sep = false →
       (record file_id fs).1 = inr (Jsonify o status) →
       dict_get (str "id") o = Some (JStr file_id)).
Proof.
  intros Hreach. apply reachable_well_kept in Hreach. split.
  - intros f mimetype. rewrite get_ics_spec. cbn [fst].
    destruct (fs !! ics file_id) as [g|] eqn:Hp; [|done]. intros [= <- _].
    destruct (Hreach _ _ Hp) as [(i & b & _ & ->)|(i & _ & Heq & _)]; [eauto|].
    by apply ics_json_path_ne in Heq.
  - intros o status Hsep. rewrite get_meta_spec. cbn [fst].
    destruct (fs !! json file_id) as [g|] eqn:Hp; [|done].
    destruct (Hreach _ _ Hp) as [(i & b & Heq & ->)|(i & Hi & Heq & Hg)].
    + symmetry in Heq. by apply ics_json_path_ne in Heq.
    + apply json_path_inj in Heq as <-; [|done..].
      destruct Hg as [->|(o' & -> & Hid)]; [done|]. by intros [= <- _].
Qed.

(** *** The filenames the check lets through *)

Lemma rfind_from_spec s c : ∀ i best,
  best < i →
  (rfind_from s c i best = best ∧ c ∉ s)
  ∨ ∃ k : nat,
      rfind_from s c i best = i + Z.of_nat k ∧ s !! k = Some c
      ∧ ∀ (k' : nat) x, (k < k')%nat → s !! k' = Some x → x ≠ c.
Proof.
  induction s as [|x s IH]; intros i best Hbest.
  - left. split; [done | apply not_elem_of_nil].
  - cbn [rfind_from].
    destruct (IH (i + 1) (if bool_decide (x = c) then i else best))
      as [[Hr Hnot]|(k & Hr & Hk & Hlater)].
    + case_bool_decide; lia.
    + case_bool_decide as Hx.
      * right. exists 0%nat. subst x. split; [lia|]. split; [done|].
        intros [|k'] y Hlt Hy; [lia|]. cbn in Hy.
        apply list_elem_of_lookup_2 in Hy. congruence.
      * left. split; [done|]. apply not_elem_of_cons. split; [congruence|done].
    + right. exists (S k). split; [lia|]. split; [done|].
      intros [|k'] y Hlt Hy; [lia|]. cbn in Hy. apply (Hlater k'); [lia|done].
Qed.

(** After the index [rfind] gives, the character does not occur. *)
Lemma rfind_after s c (k : nat) x :
  rfind s c < Z.of_nat k → s !! k = Some x → x ≠ c.
Proof.
  unfold rfind. intros Hlt Hk.
  destruct (rfind_from_spec s c 0 (-1)) as [[_ Hnot]|(j & Hr & _ & Hlater)]; [lia|..].
  - apply list_elem_of_lookup_2 in Hk. congruence.
  - apply (Hlater k); [lia|done].
Qed.

Lemma rfind_bounds s c : -1 ≤ rfind s c < Z.of_nat (length s).
Proof.
  pose proof (rfind_lt s [] c (not_elem_of_nil c)) as H.
  by rewrite app_nil_r in H.
Qed.

(** When the loop of [splitext] splits, it has met a character that is
    no dot before the last dot. *)
Lemma splitext_loop_inv p dotIndex fuel : ∀ start r,
  0 ≤ start →
  splitext_loop p dotIndex fuel start = Some r →
  r = (slice_to p dotIndex, slice_from p dotIndex)
  ∧ ∃ j : nat, start ≤ Z.of_nat j < dotIndex
               ∧ slice p (Z.of_nat j) (Z.of_nat j + 1) ≠ [extsep].
Proof.
  induction fuel as [|fuel IH]; intros start r Hstart; [done|].
  cbn [splitext_loop].
  destruct (Z.ltb_spec start dotIndex) as [Hlt|?]; [|done].
  case_bool_decide as Hdots.
  - intros [= <-]. split; [done|]. exists (Z.to_nat start).
    rewrite Z2Nat.id by done. split; [lia|done].
  - intros Hr. destruct (IH (start + 1) r) as (-> & j & Hj & Hslice); [lia|done|].
    split; [done|]. exists j. split; [lia|done].
Qed.

(** A name whose extension is not empty splits into a stem with a base
    name and what follows its last dot. *)
Lemma splitext_inv f stem ext :
  splitext f = (stem, ext) → ext ≠ [] →
  f = stem ++ ext ∧ has_base_name stem.
Proof.
  unfold splitext.
  pose proof (rfind_bounds f sep) as Hsep.
  pose proof (rfind_bounds f extsep) as Hdot.
  pose proof (rfind_after f sep) as Hafter.
  set (sepIndex := rfind f sep) in *. set (dotIndex := rfind f extsep) in *.
  destruct (Z.ltb_spec sepIndex dotIndex) as [Hlt|?]; [|by intros [= <- <-]].
  destruct (splitext_loop _ _ _ _) as [r|] eqn:Hloop; [|by intros [= <- <-]].
  apply splitext_loop_inv in Hloop as (-> & j & Hj & Hslice); [|lia].
  unfold slice_to, slice_from. intros [= <- <-] _.
  split; [by rewrite take_drop|].
  assert (j < length f)%nat as Hjlen by lia.
  apply lookup_lt_is_Some_2 in Hjlen as [c Hc].
  rewrite (slice_single _ _ _ Hc) in Hslice.
  assert (take (Z.to_nat dotIndex) f !! j = Some c) as Hstem
    by (rewrite lookup_take_lt by lia; done).
  exists (take j (take (Z.to_nat dotIndex) f)), c,
    (drop (S j) (take (Z.to_nat dotIndex) f)).
  split; [by rewrite take_drop_middle|].
  split; [congruence|]. split.
  - apply (Hafter j); [lia|done].
  - intros Hin. apply list_elem_of_lookup_1 in Hin as [k Hk].
    rewrite lookup_drop in Hk. apply lookup_take_Some in Hk as [Hk _].
    by apply (Hafter (S j + k)%nat sep); [lia|..].
Qed.

(** X8: the filenames the extension check lets through are exactly
    those made of a stem with a base name (after its last slash, a
    character that is no dot) followed by ".ics" in any case of its
    letters: a directory part does not matter, earlier dots do not
    matter, and a name that is only dots before the extension is
    refused. *)
Theorem allowed_filename_iff f :
  allowed_filename f = true
  ↔ ∃ stem ext, f = stem ++ ext ∧ has_base_name stem ∧ lower ext = str ".ics".
Proof.
  rewrite allowed_filename_ext. split.
  - intros Hlow. apply bool_decide_eq_true in Hlow.
    destruct (splitext f) as [stem ext] eqn:Hsplit. cbn [snd] in Hlow.
    exists stem, ext. apply splitext_inv in Hsplit as [Hf Hstem].
    + done.
    + intros ->. by rewrite ext_ics_eq in Hlow.
  - intros (stem & ext & -> & Hstem & Hlow).
    rewrite splitext_stem_ext by auto using single_extension_ics.
    by apply bool_decide_eq_true_2.
Qed.

(** *** The ids *)

Lemma hex_digits_length k n : length (hex_digits k n) = k.
Proof.
  revert n. induction k as [|k IH]; intros n; [done|].
  cbn [hex_digits]. rewrite length_app, IH. cbn. lia.
Qed.

Lemma hex_digit_hex d : (d < 16)%N → hex_char (hex_digit d).
Proof. unfold hex_char, hex_digit. destruct (N.ltb_spec d 10); lia. Qed.

Lemma hex_digits_hex k n : Forall hex_char (hex_digits k n).
Proof.
  revert n. induction k as [|k IH]; intros n; [constructor|].
  cbn [hex_digits]. apply Forall_app. split; [apply IH|].
  constructor; [|constructor]. apply hex_digit_hex, N.mod_lt. done.
Qed.

Lemma hex_value_digit_hex_digit d : (d < 16)%N → hex_value_digit (hex_digit d) = d.
Proof.
  unfold hex_value_digit, hex_digit. intros Hd.
  destruct (N.ltb_spec d 10).
  - destruct (N.ltb_spec (48 + d) 58); lia.
  - destruct (N.ltb_spec (87 + d) 58); lia.
Qed.

(** Reading the digits back gives the number, below [16 ^ k]. *)
Lemma hex_value_hex_digits k : ∀ n,
  hex_value 0 (hex_digits k n) = (n mod 16 ^ N.of_nat k)%N.
Proof.
  unfold hex_value. induction k as [|k IH]; intros n.
  - cbn. by rewrite N.mod_1_r.
  - cbn [hex_digits]. rewrite foldl_app. cbn [foldl]. rewrite IH.
    rewrite hex_value_digit_hex_digit by (by apply N.mod_lt).
    rewrite Nat2N.inj_succ, N.pow_succ_r'.
    rewrite N.Div0.mod_mul_r. lia.
Qed.

(** X9: an id that an upload returns is 32 lowercase hexadecimal
    digits; with an upload directory that is not empty and does not end
    in a slash, its two files lie directly in that directory, as
    "<id>.ics" and "<id>.json". *)
Theorem returned_id_shape env request fs file_id :
  response_id (upload env request fs).1 = Some file_id →
  length file_id = 32%nat
  ∧ Forall hex_char file_id
  ∧ (UPLOAD_DIR ≠ [] → endswith UPLOAD_DIR sep = false →
     ics file_id = UPLOAD_DIR ++ str "/" ++ file_id ++ str ".ics"
     ∧ json file_id = UPLOAD_DIR ++ str "/" ++ file_id ++ str ".json").
Proof.
  intros Hid.
  destruct (response_id_upload _ _ _ _ _ _ Hid) as (-> & _).
  split; [apply hex_digits_length|]. split; [apply hex_digits_hex|].
  intros Hdir Hend. unfold ics_path, json_path, os_path_join.
  rewrite Hend, bool_decide_eq_false_2 by done. cbn [orb].
  pose proof (uuid4_hex_startswith env) as Hsep.
  assert (∀ suffix, startswith (uuid4_hex env ++ suffix) sep = false) as Hstart.
  { intros suffix. destruct (uuid4_hex env) as [|c r] eqn:Hhex; [|done].
    pose proof (hex_digits_length 32 (uuid4_int env)) as Hlen.
    unfold uuid4_hex in Hhex. by rewrite Hhex in Hlen. }
  by rewrite !Hstart.
Qed.

(** X10: the id is the UUID written out: two draws below [2 ^ 128] give
    the same id only when they are the same number, so ids collide only
    when [uuid.uuid4] repeats itself. *)
Theorem equal_ids_equal_uuids env1 env2 :
  (uuid4_int env1 < 2 ^ 128)%N → (uuid4_int env2 < 2 ^ 128)%N →
  uuid4_hex env1 = uuid4_hex env2 → uuid4_int env1 = uuid4_int env2.
Proof.
  intros H1 H2 Heq. apply (f_equal (hex_value 0)) in Heq.
  unfold uuid4_hex in Heq. rewrite !hex_value_hex_digits in Heq.
  change (16 ^ N.of_nat 32)%N with (2 ^ 128)%N in Heq.
  by rewrite !N.mod_small in Heq.
Qed.

End MoreFacts.

(** * The page view *)

Section PageFacts.

Variable UPLOAD_DIR : pystr.
Variable secure_filename : pystr → pystr.
Variable json_loads : list byte → option jobj.
Variable page_html : pystr → jobj → pystr.
Variable render_template_string : pystr → pystr + pystr.

Local Abbreviation upload := (upload_schedule UPLOAD_DIR secure_filename).
Local Abbreviation page :=
  (schedule_page UPLOAD_DIR json_loads page_html render_template_string).

Lemma schedule_page_spec file_id fs :
  page file_id fs =
    (match fs !! json_path UPLOAD_DIR file_id with
     | Some (JsonText o) => rendered render_template_string (page_html file_id o)
     | Some JsonCut => inl (ViewError JSONDecodeError)
     | Some (Bytes b) =>
         match json_loads b with
         | Some o => rendered render_template_string (page_html file_id o)
         | None => inl (ViewError JSONDecodeError)
         end
     | None => inl (ViewError (HTTPException 404))
     end, fs).
Proof.
  unfold schedule_page, lift_view, bind, os_path_exists, raise, json_load, ret,
    json_path, rendered.
  destruct (fs !! _) as [f|] eqn:Hp.
  - rewrite bool_decide_eq_true_2 by eauto. cbv beta iota delta [negb].
    rewrite Hp.
    destruct f as [b|o|]; [destruct (json_loads b) as [o|]|..]; try done;
      by destruct (render_template_string (page_html file_id o)).
  - rewrite bool_decide_eq_false_2 by (intros [? ?]; done). done.
Qed.

(** X11: the page view reads the record the way the metadata view does
    and writes nothing: an exception of the view leaves it exactly when
    that exception leaves the metadata view (404 when there is no
    record, the error of [json.load] when the record cannot be read);
    and when the metadata view returns a record, the outcome of the
    page view is that of [render_template_string] on the page text for
    that id and that record: the page, or the template error, which
    leaves the view. *)
Theorem page_follows_record file_id fs :
  (schedule_page UPLOAD_DIR json_loads page_html render_template_string
     file_id fs).2 = fs
  ∧ (∀ e, (schedule_page UPLOAD_DIR json_loads page_html render_template_string
             file_id fs).1 = inl (ViewError e)
          ↔ (get_meta UPLOAD_DIR json_loads file_id fs).1 = inl e)
  ∧ (∀ meta status,
       (get_meta UPLOAD_DIR json_loads file_id fs).1
       = inr (Jsonify meta status) →
       (schedule_page UPLOAD_DIR json_loads page_html render_template_string
          file_id fs).1
       = match render_template_string (page_html file_id meta) with
         | inl msg => inl (TemplateError msg)
         | inr page => inr page
         end).
Proof.
  rewrite schedule_page_spec, get_meta_spec. cbn [fst snd].
  split; [done|]. unfold rendered.
  destruct (fs !! json_path UPLOAD_DIR file_id) as [[b|o|]|];
    [destruct (json_loads b) as [o|]|..]; split.
  all: try (intros e; split; intros H;
            first [ discriminate H
                  | by injection H as ->
                  | by destruct (render_template_string (page_html file_id o)) ]).
  all: intros meta status H; first [discriminate H | by injection H as -> _].
Qed.

(** X12: the link a successful upload returns ends in "/s/" and the id,
    and the page view does not answer 404 for that id: it reads the
    record the upload has just written and its outcome is that of
    [render_template_string] on the page text for the id and that
    record. *)
Theorem share_link_page_found env request uploaded fs file_id :
  accepted request uploaded →
  response_id (upload env request fs).1 = Some file_id →
  (∃ body,
     (upload env request fs).1 = inr (Jsonify body 200)
     ∧ dict_get (str "link") body
       = Some (JStr (rstrip_char sep (url_root request) ++ str "/s/" ++ file_id)))
  ∧ (page file_id (upload env request fs).2).1
    = match render_template_string
              (page_html file_id (meta_of secure_filename env request uploaded)) with
      | inl msg => inl (TemplateError msg)
      | inr page => inr page
      end
  ∧ (page file_id (upload env request fs).2).1 ≠ inl (ViewError (HTTPException 404)).
Proof.
  intros Hacc Hid.
  destruct (response_id_upload _ _ _ _ _ _ Hid) as (-> & Hs & Hd & _).
  rewrite schedule_page_spec, (upload_accepted _ _ _ _ _ _ Hacc), Hs, Hd.
  cbn [fst snd]. rewrite lookup_insert_eq. unfold rendered.
  split; [by exists (success_body env request)|]. split; [done|].
  by destruct (render_template_string _).
Qed.

End PageFacts.

(** * The further statements on sample calls *)

(** X1 on "notes.txt". *)
Lemma refused_upload_changes_nothing_witness :
  (upload_schedule tmp_uploads secure_filename_ascii draw_one notes_request ∅).2 = ∅
  ∧ response_id
      (upload_schedule tmp_uploads secure_filename_ascii draw_one notes_request ∅).1
    = None.
Proof.
  destruct (refused_upload_changes_nothing tmp_uploads secure_filename_ascii
              draw_one notes_request ∅) as (Hfs & Hid & _).
  - intros uploaded (_ & Hfile & _ & Hext). injection Hfile as <-.
    vm_compute in Hext. discriminate Hext.
  - split; [exact Hfs | exact Hid].
Defined.

(** X2 on the upload of Alice when the disk is full. *)
Lemma payload_write_failure_reported_witness :
  (upload_schedule tmp_uploads secure_filename_ascii draw_one_save_fails
     alice_request ∅).1
  = inr (Jsonify (error_body (str "Failed to save: " ++ disk_full)) 500)
  ∧ (upload_schedule tmp_uploads secure_filename_ascii draw_one_save_fails
       alice_request ∅).2 = ∅.
Proof.
  destruct (payload_write_failure_reported tmp_uploads secure_filename_ascii
              draw_one_save_fails alice_request alice_upload ∅ disk_full None
              alice_accepted eq_refl) as (Hr & _ & _ & Hfs).
  split; [exact Hr | exact (Hfs eq_refl)].
Defined.

(** X3 on the upload of Alice, whose URL root ends in a slash. *)
Lemma share_link_shape_witness :
  ∃ body base k,
    (upload_schedule tmp_uploads secure_filename_ascii draw_one alice_request ∅).1
    = inr (Jsonify body 200)
    ∧ url_root alice_request = base ++ replicate k sep
    ∧ last base ≠ Some sep
    ∧ dict_get (str "link") body
      = Some (JStr (base ++ str "/s/" ++ uuid4_hex draw_one)).
Proof.
  exact (share_link_shape tmp_uploads secure_filename_ascii draw_one
           alice_request alice_upload ∅ alice_accepted eq_refl eq_refl).
Defined.

(** X4 on the upload of Alice. *)
Lemma record_matches_response_witness :
  ∃ body meta,
    (upload_schedule tmp_uploads secure_filename_ascii draw_one alice_request ∅).1
    = inr (Jsonify body 200)
    ∧ (get_meta tmp_uploads no_json id_one
         (upload_schedule tmp_uploads secure_filename_ascii draw_one
            alice_request ∅).2).1
      = inr (Jsonify meta 200)
    ∧ meta.*1 = [str "id"; str "name"; str "orig_name"]
    ∧ dict_get (str "id") meta = Some (JStr id_one)
    ∧ dict_get (str "name") meta = dict_get (str "name") body
    ∧ dict_get (str "orig_name") meta
      = Some (JStr (secure_filename_ascii (filename alice_upload))).
Proof.
  exact (record_matches_response tmp_uploads secure_filename_ascii no_json
           draw_one alice_request alice_upload ∅ id_one alice_accepted eq_refl).
Defined.

(** X5: the upload of Bob with the second draw leaves what Alice stored. *)
Lemma later_uploads_keep_stored_witness :
  (get_ics tmp_uploads id_one
     (run tmp_uploads secure_filename_ascii [(draw_two, bob_request)] after_alice).2).1
  = (get_ics tmp_uploads id_one after_alice).1
  ∧ (get_meta tmp_uploads no_json id_one
       (run tmp_uploads secure_filename_ascii [(draw_two, bob_request)]
          after_alice).2).1
    = (get_meta tmp_uploads no_json id_one after_alice).1.
Proof.
  apply (later_uploads_keep_stored tmp_uploads secure_filename_ascii no_json
           [(draw_two, bob_request)] after_alice id_one eq_refl).
  apply (bool_decide_unpack _). by vm_compute.
Defined.

(** X6: the upload of Bob with the draw of Alice again replaces her
    files and removes none. *)
Lemma uploads_never_delete_witness :
  ¬ NotFound
      (get_ics tmp_uploads id_one
         (run tmp_uploads secure_filename_ascii [(draw_one, bob_request)]
            after_alice).2)
  ∧ ¬ NotFound
        (get_meta tmp_uploads no_json id_one
           (run tmp_uploads secure_filename_ascii [(draw_one, bob_request)]
              after_alice).2).
Proof.
  destruct (uploads_never_delete tmp_uploads secure_filename_ascii no_json
              [(draw_one, bob_request)] after_alice id_one) as [Ha Hr].
  split; [apply Ha | apply Hr]; by vm_compute.
Defined.

Lemma after_alice_reachable :
  reachable tmp_uploads secure_filename_ascii after_alice.
Proof. apply reach_put, reach_empty. Qed.

(** X7 on the record of Alice. *)
Lemma stored_files_are_what_they_claim_witness :
  dict_get (str "id")
    (meta_of secure_filename_ascii draw_one alice_request alice_upload)
  = Some (JStr id_one).
Proof.
  apply (proj2 (stored_files_are_what_they_claim tmp_uploads secure_filename_ascii
                  no_json after_alice id_one after_alice_reachable)
           _ 200 eq_refl).
  by vm_compute.
Defined.

(** X9 on the id of Alice. *)
Lemma returned_id_shape_witness :
  length id_one = 32%nat
  ∧ ics_path tmp_uploads id_one = tmp_uploads ++ str "/" ++ id_one ++ str ".ics"
  ∧ json_path tmp_uploads id_one = tmp_uploads ++ str "/" ++ id_one ++ str ".json".
Proof.
  destruct (returned_id_shape tmp_uploads secure_filename_ascii draw_one
              alice_request ∅ id_one eq_refl) as (Hlen & _ & Hpaths).
  split; [exact Hlen|]. apply Hpaths; by vm_compute.
Defined.

(** X10 on the first draw, as two calls drew it. *)
Lemma equal_ids_equal_uuids_witness :
  uuid4_int draw_one = uuid4_int draw_one_dump_fails.
Proof.
  apply (equal_ids_equal_uuids draw_one draw_one_dump_fails);
    reflexivity.
Defined.

(** X11 on the record of Alice, with a rendering that raises. *)
Lemma page_follows_record_witness :
  (schedule_page tmp_uploads no_json sample_page_html sample_render id_one
     after_alice).1
  = inl (TemplateError (str "expected token 'end of print statement', got ':'")).
Proof.
  apply (proj2 (proj2 (page_follows_record tmp_uploads no_json sample_page_html
                         sample_render id_one after_alice))
           (meta_of secure_filename_ascii draw_one alice_request alice_upload)
           200).
  by vm_compute.
Defined.

(** X12 on the upload of Alice, with a rendering that raises. *)
Lemma share_link_page_found_witness :
  (schedule_page tmp_uploads no_json sample_page_html sample_render id_one
     (upload_schedule tmp_uploads secure_filename_ascii draw_one alice_request ∅).2).1
  = inl (TemplateError (str "expected token 'end of print statement', got ':'")).
Proof.
  exact (proj1 (proj2 (share_link_page_found tmp_uploads secure_filename_ascii
                         no_json sample_page_html sample_render draw_one
                         alice_request alice_upload ∅ id_one alice_accepted
                         eq_refl))).
Defined.
